(** * NCDS HTML generator: component mapper and markup generator

    A shallow embedding of [src/mappers/ncds-component-mapper.ts] and
    [src/generators/ncds-html-generator.ts].

    Conventions of the embedding:
    - a JavaScript string is a [string], the bytes of its UTF-8 encoding;
      [toLowerCase] acts on the ASCII letters;
    - a JavaScript number is an integer [Z]; a computed number is a
      [number], [None] standing for NaN; the two quantities that the
      progress circle computes in floating point are parameters;
    - a dynamically typed property value ([any]) is a [value], and a props
      object is the list of its keys and values;
    - code that can throw returns a [result]: reading a member of
      [undefined] and calling [map] on what is not an array are errors;
    - the mutable state of a generator, the used kinds and the counter, is
      passed through the rendering functions as a [Usage]. *)

From Stdlib Require Import String Ascii List ZArith Bool Lia DecimalString.
Import ListNotations.
Open Scope string_scope.

Set Implicit Arguments.
Set Warnings "-register-all".

(** ** Results of code that can throw *)

Inductive result (A : Type) : Type :=
| Ok (a : A)
| TypeError (msg : string).

Arguments Ok {A} a.
Arguments TypeError {A} msg.

Definition bind {A B : Type} (r : result A) (k : A -> result B) : result B :=
  match r with
  | Ok a => k a
  | TypeError msg => TypeError msg
  end.

Notation "x <- r ;; k" := (bind r (fun x => k))
  (at level 61, r at next level, right associativity).

(** [completes r]: the call returned a value, it did not throw. *)
Definition completes {A : Type} (r : result A) : Prop := exists a, r = Ok a.

(** Reading a member of something that may be [undefined]. *)
Definition deref {A : Type} (o : option A) : result A :=
  match o with
  | Some a => Ok a
  | None => TypeError "Cannot read properties of undefined"
  end.

Definition isSome {A : Type} (o : option A) : bool :=
  match o with Some _ => true | None => false end.

(** ** Strings *)

(** [String.prototype.toLowerCase] on the ASCII letters; bytes of code
    points outside ASCII are left as they are. *)
Definition toLowerChar (c : ascii) : ascii :=
  let n := nat_of_ascii c in
  if (65 <=? n)%nat && (n <=? 90)%nat then ascii_of_nat (n + 32) else c.

Fixpoint toLowerCase (s : string) : string :=
  match s with
  | EmptyString => EmptyString
  | String c rest => String (toLowerChar c) (toLowerCase rest)
  end.

(** [s.includes(sub)] *)
Fixpoint includes (s sub : string) : bool :=
  match s with
  | EmptyString => prefix sub EmptyString
  | String _ rest => prefix sub s || includes rest sub
  end.

(** [parts.join(sep)] *)
Fixpoint join (sep : string) (parts : list string) : string :=
  match parts with
  | [] => ""
  | [p] => p
  | p :: rest => p ++ sep ++ join sep rest
  end.

(** The double quote and the line feed, which a literal cannot hold. *)
Definition dq : string := String (ascii_of_nat 34) EmptyString.
Definition nl : string := String (ascii_of_nat 10) EmptyString.

(** ** Numbers and dynamically typed values *)

(** A computed number; [None] is NaN. *)
Definition number : Type := option Z.

Definition Z_toString (z : Z) : string := NilZero.string_of_int (Z.to_int z).

Definition Number_toString (n : number) : string :=
  match n with
  | Some z => Z_toString z
  | None => "NaN"
  end.

Inductive value : Type :=
| VUndefined
| VBool (b : bool)
| VNumber (z : Z)
| VString (s : string)
| VArray (items : list value)
| VObject (fields : list (string * value)).

(** An optional string field: absent is [undefined]. *)
Definition ofText (o : option string) : value :=
  match o with
  | Some s => VString s
  | None => VUndefined
  end.

(** ToBoolean *)
Definition truthy (v : value) : bool :=
  match v with
  | VUndefined => false
  | VBool b => b
  | VNumber z => negb (z =? 0)%Z
  | VString s => negb (s =? "")
  | VArray _ => true
  | VObject _ => true
  end.

(** [a || b] *)
Definition js_or (a b : value) : value := if truthy a then a else b.

(** ToString, as a template literal applies it. *)
Fixpoint toStr (v : value) : string :=
  match v with
  | VUndefined => "undefined"
  | VBool true => "true"
  | VBool false => "false"
  | VNumber z => Z_toString z
  | VString s => s
  | VArray items =>
      join "," (map (fun item => match item with
                                 | VUndefined => ""
                                 | _ => toStr item
                                 end) items)
  | VObject _ => "[object Object]"
  end.

(** [a === b] against a string or number literal. *)
Definition strictEqString (v : value) (s : string) : bool :=
  match v with
  | VString t => t =? s
  | _ => false
  end.

Definition strictEqNumber (v : value) (n : number) : bool :=
  match v, n with
  | VNumber z, Some k => (z =? k)%Z
  | _, _ => false
  end.

(** [a === b] between two values.  Arrays and objects are equal only when
    they are the same object, an identity the value model does not carry:
    two of them compare unequal. *)
Definition strictEq (a b : value) : bool :=
  match a, b with
  | VUndefined, VUndefined => true
  | VBool x, VBool y => Bool.eqb x y
  | VNumber x, VNumber y => (x =? y)%Z
  | VString x, VString y => x =? y
  | _, _ => false
  end.

(** [v.length] of an array. *)
Definition array_length (v : value) : nat :=
  match v with
  | VArray items => length items
  | _ => 0
  end.

(** [obj.key] on an object: the property, or [undefined]. *)
Fixpoint get (key : string) (fields : list (string * value)) : value :=
  match fields with
  | [] => VUndefined
  | (k, v) :: rest => if k =? key then v else get key rest
  end.

(** [v.key] on any value: throws on [undefined], and a boolean, number,
    string or array has none of the keys the sources read. *)
Definition member (v : value) (key : string) : result value :=
  match v with
  | VUndefined => TypeError "Cannot read properties of undefined"
  | VObject fields => Ok (get key fields)
  | _ => Ok VUndefined
  end.

(** [v.map(f)]: only an array has [map]. *)
Fixpoint mapM {A B : Type} (f : nat -> A -> result B) (index : nat)
  (items : list A) : result (list B) :=
  match items with
  | [] => Ok []
  | item :: rest =>
      b <- f index item ;;
      bs <- mapM f (S index) rest ;;
      Ok (b :: bs)
  end.

Definition array_map (v : value) (f : nat -> value -> result string)
  : result (list string) :=
  match v with
  | VArray items => mapM f 0 items
  | _ => TypeError "map is not a function"
  end.

(** [items.map((item, index) => f)] for a callback that cannot throw. *)
Fixpoint mapi {A B : Type} (f : nat -> A -> B) (index : nat)
  (items : list A) : list B :=
  match items with
  | [] => []
  | item :: rest => f index item :: mapi f (S index) rest
  end.

(** *** Numeric coercion *)

Definition isSpace (c : ascii) : bool :=
  let n := nat_of_ascii c in
  (n =? 32)%nat || ((9 <=? n)%nat && (n <=? 13)%nat).

(** [s.trimStart()], for the ASCII white space. *)
Fixpoint trimStart (s : string) : string :=
  match s with
  | EmptyString => EmptyString
  | String c rest => if isSpace c then trimStart rest else s
  end.

(** Whether [s] has a character that is not white space, that is
    [s.trim() !== '']. *)
Definition trimmedNonEmpty (s : string) : bool :=
  negb (trimStart s =? "").

Definition isDigit (c : ascii) : bool :=
  let n := nat_of_ascii c in (48 <=? n)%nat && (n <=? 57)%nat.

(** The value of the leading run of digits of [s], and what follows it. *)
Fixpoint digits (s : string) (acc : Z) : Z * string :=
  match s with
  | EmptyString => (acc, EmptyString)
  | String c rest =>
      if isDigit c
      then digits rest (10 * acc + Z.of_nat (nat_of_ascii c - 48))
      else (acc, s)
  end.

Definition unsignedInteger (s : string) : number :=
  match s with
  | EmptyString => None
  | String c _ =>
      if isDigit c then
        let (z, rest) := digits s 0 in
        if trimStart rest =? "" then Some z else None
      else None
  end.

(** StringToNumber on the decimal integer literals: the empty or blank
    string is 0, a signed run of digits is its value, anything else NaN.
    Literals that denote other numbers (fractions, exponents, radix
    prefixes, Infinity) are outside the integer model. *)
Definition StringToNumber (s : string) : number :=
  match trimStart s with
  | EmptyString => Some 0%Z
  | String c rest =>
      if (c =? "-")%char then option_map Z.opp (unsignedInteger rest)
      else if (c =? "+")%char then unsignedInteger rest
      else unsignedInteger (String c rest)
  end.

(** ToNumber *)
Definition ToNumber (v : value) : number :=
  match v with
  | VUndefined => None
  | VBool true => Some 1%Z
  | VBool false => Some 0%Z
  | VNumber z => Some z
  | VString s => StringToNumber s
  | VArray _ => StringToNumber (toStr v)
  | VObject _ => None
  end.

Definition lift2 (f : Z -> Z -> Z) (a b : number) : number :=
  match a, b with
  | Some x, Some y => Some (f x y)
  | _, _ => None
  end.

(** [Math.max], [Math.min], [-] and [+] on numbers; NaN propagates. *)
Definition Math_max : number -> number -> number := lift2 Z.max.
Definition Math_min : number -> number -> number := lift2 Z.min.
Definition num_sub : number -> number -> number := lift2 Z.sub.
Definition num_add : number -> number -> number := lift2 Z.add.

(** [a > b]; false when either side is NaN. *)
Definition num_gt (a b : number) : bool :=
  match a, b with
  | Some x, Some y => (y <? x)%Z
  | _, _ => false
  end.

(** ** The design node model ([~/extractors/types.js]) *)

(** Modelled from the spec: the declaration of [SimplifiedNode] is not part
    of the sources.  A node has a stable identifier, a display name, a kind,
    and optionally literal text, a layout box (width, height and position),
    an opacity, a corner radius and an ordered sequence of children. *)
Record LayoutBox : Type := {
  width : Z;
  height : Z;
  x : Z;
  y : Z
}.

Inductive SimplifiedNode : Type := mkNode {
  id : string;
  name : string;
  type : string;
  text : option string;
  layout : option LayoutBox;
  opacity : option Z;
  borderRadius : option string;
  children : option (list SimplifiedNode)
}.

(** ** The component mapper ([src/mappers/ncds-component-mapper.ts]) *)

(** [children?: NcdsComponentMapping[]] is never written nor read. *)
Record NcdsComponentMapping : Type := {
  component : string;
  props : list (string * value);
  htmlTag : string;
  className : string
}.

Record ComponentMappingRule : Type := {
  condition : SimplifiedNode -> bool;
  mapper : SimplifiedNode -> result NcdsComponentMapping
}.

(** *** Helper functions *)

Definition inferButtonTheme (node : SimplifiedNode) : string :=
  let name := toLowerCase (name node) in
  if includes name "primary" then "primary"
  else if includes name "secondary" then "secondary"
  else if includes name "destructive" || includes name "danger"
          || includes name "delete" then "destructive"
  else if includes name "link" then "link"
  else if includes name "tertiary" then "tertiary"
  else if includes name "gray" then "secondary-gray"
  else "primary".

Definition inferSize (node : SimplifiedNode) : string :=
  if negb (isSome (layout node)) then "md"
  else
    let name := toLowerCase (name node) in
    if includes name "xxs" || includes name "tiny" then "xxs"
    else if includes name "xs" || includes name "small" then "xs"
    else if includes name "sm" then "sm"
    else if includes name "lg" || includes name "large" then "lg"
    else if includes name "xl" || includes name "xlarge" then "xl"
    else if includes name "2xl" || includes name "xxlarge" then "2xl"
    else "md".

Definition inferBadgeColor (node : SimplifiedNode) : string :=
  let name := toLowerCase (name node) in
  if includes name "success" || includes name "green" then "success"
  else if includes name "warning" || includes name "yellow" then "warning"
  else if includes name "error" || includes name "red" then "error"
  else if includes name "info" || includes name "blue" then "info"
  else "default".

Definition inferNotificationType (node : SimplifiedNode) : string :=
  let name := toLowerCase (name node) in
  if includes name "success" then "success"
  else if includes name "warning" then "warning"
  else if includes name "error" || includes name "danger" then "error"
  else if includes name "info" then "info"
  else "info".

Definition findChildText (node : SimplifiedNode) (type : string)
  : result value :=
  if negb (isSome (children node)) then Ok VUndefined
  else
    cs <- deref (children node) ;;
    let child :=
      find (fun child =>
              includes (toLowerCase (name child)) type
              && truthy (ofText (text child))) cs in
    Ok (match child with
        | Some c => ofText (text c)
        | None => VUndefined
        end).

Definition extractTabItems (node : SimplifiedNode) : result value :=
  if negb (isSome (children node)) then Ok (VArray [])
  else
    cs <- deref (children node) ;;
    Ok (VArray
          (map (fun child =>
                  VObject
                    [("label", js_or (ofText (text child))
                                 (VString (name child)));
                     ("isActive",
                       VBool (includes (toLowerCase (name child)) "active"))])
             (filter (fun child =>
                        (type child =? "TEXT")
                        || truthy (ofText (text child))) cs))).

(** The two default items, [옵션 1] and [옵션 2]. *)
Definition defaultDropdownItems : value :=
  VArray [VObject [("label", VString "옵션 1"); ("value", VString "1")];
          VObject [("label", VString "옵션 2"); ("value", VString "2")]].

Definition extractDropdownItems (node : SimplifiedNode) : result value :=
  if negb (isSome (children node)) then Ok defaultDropdownItems
  else
    cs <- deref (children node) ;;
    Ok (VArray
          (mapi (fun index child =>
                   VObject
                     [("label",
                        js_or (ofText (text child))
                          (VString ("옵션 "
                                    ++ Z_toString (Z.of_nat (index + 1)))));
                      ("value", VString (Z_toString (Z.of_nat (index + 1))))])
             0
             (filter (fun child => truthy (ofText (text child))) cs))).

Definition inferTagColor (node : SimplifiedNode) : string :=
  let name := toLowerCase (name node) in
  if includes name "success" || includes name "green" then "success"
  else if includes name "warning" || includes name "yellow" then "warning"
  else if includes name "error" || includes name "red" then "error"
  else if includes name "info" || includes name "blue" then "info"
  else if includes name "primary" then "primary"
  else "gray".

Definition inferIconColor (node : SimplifiedNode) : string :=
  let name := toLowerCase (name node) in
  if includes name "primary" || includes name "red" then "primary"
  else if includes name "success" || includes name "green" then "success"
  else if includes name "warning" || includes name "yellow" then "warning"
  else if includes name "error" || includes name "danger" then "error"
  else if includes name "info" || includes name "blue" then "info"
  else "gray".

(** *** The ordered rule table [NCDS_COMPONENT_RULES] *)

Definition buttonRule : ComponentMappingRule := {|
  condition := fun node =>
    let name := toLowerCase (name node) in
    (type node =? "INSTANCE")
    || ((type node =? "FRAME")
        && (includes name "button" || includes name "btn"
            || includes name "click" || includes name "submit"));
  mapper := fun node =>
    Ok {| component := "Button";
          props := [("label", js_or (ofText (text node)) (VString (name node)));
                    ("hierarchy", VString (inferButtonTheme node));
                    ("size", VString (inferSize node));
                    ("disabled",
                      VBool (includes (toLowerCase (name node)) "disabled"))];
          htmlTag := "button";
          className := "ncua-btn" |}
|}.

Definition inputRule : ComponentMappingRule := {|
  condition := fun node =>
    let name := toLowerCase (name node) in
    (type node =? "FRAME")
    && (includes name "input" || includes name "field"
        || (includes name "text" && negb (includes name "label")));
  mapper := fun node =>
    Ok {| component := "InputBase";
          props := [("placeholder",
                      js_or (ofText (text node)) (VString "Enter text..."));
                    ("size", VString (inferSize node));
                    ("disabled",
                      VBool (includes (toLowerCase (name node)) "disabled"));
                    ("required",
                      VBool (includes (toLowerCase (name node)) "required"))];
          htmlTag := "input";
          className := "ncua-input" |}
|}.

Definition checkboxRule : ComponentMappingRule := {|
  condition := fun node =>
    let name := toLowerCase (name node) in
    (type node =? "FRAME")
    && (includes name "checkbox" || includes name "check");
  mapper := fun node =>
    Ok {| component := "Checkbox";
          props := [("label", js_or (ofText (text node)) (VString (name node)));
                    ("checked",
                      VBool (includes (toLowerCase (name node)) "checked"));
                    ("disabled",
                      VBool (includes (toLowerCase (name node)) "disabled"))];
          htmlTag := "label";
          className := "ncua-checkbox" |}
|}.

Definition radioRule : ComponentMappingRule := {|
  condition := fun node =>
    let name := toLowerCase (name node) in
    (type node =? "FRAME") && includes name "radio";
  mapper := fun node =>
    Ok {| component := "Radio";
          props := [("label", js_or (ofText (text node)) (VString (name node)));
                    ("checked",
                      VBool (includes (toLowerCase (name node)) "selected"));
                    ("disabled",
                      VBool (includes (toLowerCase (name node)) "disabled"))];
          htmlTag := "label";
          className := "ncua-radio" |}
|}.

Definition selectRule : ComponentMappingRule := {|
  condition := fun node =>
    let name := toLowerCase (name node) in
    (type node =? "FRAME")
    && (includes name "select" || includes name "dropdown"
        || includes name "combo");
  mapper := fun node =>
    Ok {| component := "Select";
          props := [("placeholder",
                      js_or (ofText (text node)) (VString "Select an option"));
                    ("size", VString (inferSize node));
                    ("disabled",
                      VBool (includes (toLowerCase (name node)) "disabled"))];
          htmlTag := "select";
          className := "ncua-select" |}
|}.

Definition badgeRule : ComponentMappingRule := {|
  condition := fun node =>
    let name := toLowerCase (name node) in
    ((type node =? "FRAME") || (type node =? "TEXT"))
    && (includes name "badge" || includes name "tag" || includes name "chip");
  mapper := fun node =>
    Ok {| component := "Badge";
          props := [("label", js_or (ofText (text node)) (VString (name node)));
                    ("color", VString (inferBadgeColor node));
                    ("size", VString (inferSize node))];
          htmlTag := "span";
          className := "ncua-badge" |}
|}.

Definition modalRule : ComponentMappingRule := {|
  condition := fun node =>
    let name := toLowerCase (name node) in
    (type node =? "FRAME")
    && (includes name "modal" || includes name "dialog"
        || includes name "popup");
  mapper := fun node =>
    title <- findChildText node "title" ;;
    Ok {| component := "Modal";
          props := [("isOpen", VBool true);
                    ("title", js_or title (VString "Modal Title"))];
          htmlTag := "div";
          className := "ncua-modal" |}
|}.

Definition tabRule : ComponentMappingRule := {|
  condition := fun node =>
    let name := toLowerCase (name node) in
    (type node =? "FRAME")
    && (includes name "tab" && negb (includes name "table"));
  mapper := fun node =>
    tabs <- extractTabItems node ;;
    Ok {| component := "HorizontalTab";
          props := [("tabs", tabs)];
          htmlTag := "div";
          className := "ncua-tab" |}
|}.

Definition paginationRule : ComponentMappingRule := {|
  condition := fun node =>
    let name := toLowerCase (name node) in
    (type node =? "FRAME")
    && (includes name "pagination" || includes name "pager");
  mapper := fun node =>
    Ok {| component := "Pagination";
          props := [("currentPage", VNumber 1);
                    ("totalPages", VNumber 10);
                    ("size", VString (inferSize node))];
          htmlTag := "nav";
          className := "ncua-pagination" |}
|}.

Definition progressBarRule : ComponentMappingRule := {|
  condition := fun node =>
    let name := toLowerCase (name node) in
    (type node =? "FRAME")
    && (includes name "progress" && includes name "bar");
  mapper := fun node =>
    Ok {| component := "ProgressBar";
          props := [("progress", VNumber 50);
                    ("size", VString (inferSize node))];
          htmlTag := "div";
          className := "ncua-progress-bar" |}
|}.

Definition notificationRule : ComponentMappingRule := {|
  condition := fun node =>
    let name := toLowerCase (name node) in
    (type node =? "FRAME")
    && (includes name "notification" || includes name "alert"
        || includes name "toast");
  mapper := fun node =>
    title <- findChildText node "title" ;;
    description <- findChildText node "description" ;;
    Ok {| component := "Notification";
          props := [("title", js_or title (VString "Notification"));
                    ("description", js_or description (ofText (text node)));
                    ("type", VString (inferNotificationType node))];
          htmlTag := "div";
          className := "ncua-notification" |}
|}.

Definition verticalTabRule : ComponentMappingRule := {|
  condition := fun node =>
    let name := toLowerCase (name node) in
    (type node =? "FRAME")
    && (includes name "vertical" && includes name "tab");
  mapper := fun node =>
    tabs <- extractTabItems node ;;
    Ok {| component := "VerticalTab";
          props := [("tabs", tabs); ("type", VString "button-primary")];
          htmlTag := "div";
          className := "ncua-vertical-tab" |}
|}.

Definition progressCircleRule : ComponentMappingRule := {|
  condition := fun node =>
    let name := toLowerCase (name node) in
    (type node =? "FRAME")
    && (includes name "progress"
        && (includes name "circle" || includes name "circular"));
  mapper := fun node =>
    Ok {| component := "ProgressCircle";
          props := [("progress", VNumber 50);
                    ("size", VString (inferSize node))];
          htmlTag := "div";
          className := "ncua-progress-circle" |}
|}.

Definition spinnerRule : ComponentMappingRule := {|
  condition := fun node =>
    let name := toLowerCase (name node) in
    (type node =? "FRAME")
    && (includes name "spinner" || includes name "loading"
        || includes name "loader");
  mapper := fun node =>
    Ok {| component := "Spinner";
          props := [("size", VString (inferSize node));
                    ("text", ofText (text node))];
          htmlTag := "div";
          className := "ncua-spinner" |}
|}.

Definition tagRule : ComponentMappingRule := {|
  condition := fun node =>
    let name := toLowerCase (name node) in
    ((type node =? "FRAME") || (type node =? "TEXT"))
    && (includes name "tag" && negb (includes name "stage"));
  mapper := fun node =>
    Ok {| component := "Tag";
          props := [("label", js_or (ofText (text node)) (VString (name node)));
                    ("color", VString (inferTagColor node));
                    ("size", VString (inferSize node))];
          htmlTag := "span";
          className := "ncua-tag" |}
|}.

Definition toggleRule : ComponentMappingRule := {|
  condition := fun node =>
    let name := toLowerCase (name node) in
    (type node =? "FRAME")
    && (includes name "toggle" || includes name "switch");
  mapper := fun node =>
    Ok {| component := "Toggle";
          props := [("checked", VBool (includes (toLowerCase (name node)) "on"));
                    ("disabled",
                      VBool (includes (toLowerCase (name node)) "disabled"));
                    ("size", VString (inferSize node));
                    ("text", ofText (text node))];
          htmlTag := "label";
          className := "ncua-toggle" |}
|}.

Definition tooltipRule : ComponentMappingRule := {|
  condition := fun node =>
    let name := toLowerCase (name node) in
    (type node =? "FRAME") && includes name "tooltip";
  mapper := fun node =>
    title <- findChildText node "title" ;;
    Ok {| component := "Tooltip";
          props := [("title", js_or title (ofText (text node)));
                    ("position", VString "top")];
          htmlTag := "span";
          className := "ncua-tooltip" |}
|}.

Definition sliderRule : ComponentMappingRule := {|
  condition := fun node =>
    let name := toLowerCase (name node) in
    (type node =? "FRAME")
    && (includes name "slider" || includes name "range");
  mapper := fun node =>
    Ok {| component := "Slider";
          props := [("value", VNumber 50);
                    ("min", VNumber 0);
                    ("max", VNumber 100);
                    ("size", VString (inferSize node))];
          htmlTag := "div";
          className := "ncua-slider" |}
|}.

Definition breadCrumbRule : ComponentMappingRule := {|
  condition := fun node =>
    let name := toLowerCase (name node) in
    (type node =? "FRAME")
    && (includes name "breadcrumb" || includes name "bread");
  mapper := fun node =>
    Ok {| component := "BreadCrumb";
          props := [("items",
                      VArray [VObject [("label", VString "Home");
                                       ("href", VString "/")];
                              VObject [("label", VString "Current");
                                       ("href", VString "#")]])];
          htmlTag := "nav";
          className := "ncua-breadcrumb" |}
|}.

Definition dividerRule : ComponentMappingRule := {|
  condition := fun node =>
    let name := toLowerCase (name node) in
    ((type node =? "FRAME") || (type node =? "LINE"))
    && (includes name "divider" || includes name "separator"
        || includes name "line");
  mapper := fun node =>
    Ok {| component := "Divider";
          props := [("orientation",
                      VString (match layout node with
                               | Some box =>
                                   if (height box <? width box)%Z
                                   then "horizontal" else "vertical"
                               | None => "vertical"
                               end));
                    ("text", ofText (text node))];
          htmlTag := "hr";
          className := "ncua-divider" |}
|}.

Definition dropdownRule : ComponentMappingRule := {|
  condition := fun node =>
    let name := toLowerCase (name node) in
    (type node =? "FRAME")
    && (includes name "dropdown" && negb (includes name "select"));
  mapper := fun node =>
    items <- extractDropdownItems node ;;
    Ok {| component := "Dropdown";
          props := [("label", js_or (ofText (text node)) (VString "Dropdown"));
                    ("items", items)];
          htmlTag := "div";
          className := "ncua-dropdown" |}
|}.

Definition emptyStateRule : ComponentMappingRule := {|
  condition := fun node =>
    let name := toLowerCase (name node) in
    (type node =? "FRAME")
    && (includes name "empty" || includes name "no-data"
        || includes name "no-result");
  mapper := fun node =>
    title <- findChildText node "title" ;;
    description <- findChildText node "description" ;;
    Ok {| component := "EmptyState";
          props := [("title", js_or title (VString "No Data"));
                    ("description", js_or description (ofText (text node)))];
          htmlTag := "div";
          className := "ncua-empty-state" |}
|}.

Definition featuredIconRule : ComponentMappingRule := {|
  condition := fun node =>
    let name := toLowerCase (name node) in
    ((type node =? "FRAME") || (type node =? "COMPONENT"))
    && (includes name "icon" || includes name "featured");
  mapper := fun node =>
    Ok {| component := "FeaturedIcon";
          props := [("name", VString "star");
                    ("size", VString (inferSize node));
                    ("color", VString (inferIconColor node));
                    ("theme", VString "light")];
          htmlTag := "div";
          className := "ncua-featured-icon" |}
|}.

Definition NCDS_COMPONENT_RULES : list ComponentMappingRule :=
  [buttonRule; inputRule; checkboxRule; radioRule; selectRule; badgeRule;
   modalRule; tabRule; paginationRule; progressBarRule; notificationRule;
   verticalTabRule; progressCircleRule; spinnerRule; tagRule; toggleRule;
   tooltipRule; sliderRule; breadCrumbRule; dividerRule; dropdownRule;
   emptyStateRule; featuredIconRule].

(** The loop of [mapToNcdsComponent]: the first rule whose condition holds
    maps the node; [None] is [null]. *)
Fixpoint firstMatch (rules : list ComponentMappingRule)
  (node : SimplifiedNode) : result (option NcdsComponentMapping) :=
  match rules with
  | [] => Ok None
  | rule :: rest =>
      if condition rule node
      then mapping <- mapper rule node ;; Ok (Some mapping)
      else firstMatch rest node
  end.

Definition mapToNcdsComponent (node : SimplifiedNode)
  : result (option NcdsComponentMapping) :=
  firstMatch NCDS_COMPONENT_RULES node.

Definition validComponents : list string :=
  ["Button"; "InputBase"; "Checkbox"; "Radio"; "Select"; "Badge"; "Modal";
   "HorizontalTab"; "VerticalTab"; "Pagination"; "ProgressBar";
   "ProgressCircle"; "Notification"; "Spinner"; "Tag"; "Tooltip"; "Slider";
   "Toggle"; "BreadCrumb"; "Divider"; "Dropdown"; "EmptyState";
   "FeaturedIcon"].

Definition validateNcdsMapping (mapping : NcdsComponentMapping) : bool :=
  existsb (fun c => c =? component mapping) validComponents.

(** ** The markup generator ([src/generators/ncds-html-generator.ts]) *)

(** A literal that holds double quotes is written with [~] in their place;
    no template of the sources holds a [~] of its own. *)
Fixpoint q (s : string) : string :=
  match s with
  | EmptyString => EmptyString
  | String c rest =>
      if (c =? "~")%char then dq ++ q rest else String c (q rest)
  end.

(** A template literal, line by line. *)
Definition lines (ls : list string) : string := join nl ls.

Definition nonEmpty (s : string) : bool := negb (s =? "").

(** The recurring fragment [id ? ` id="${id}"` : ''] *)
Definition idAttr (id : string) : string :=
  if nonEmpty id then q " id=~" ++ id ++ dq else "".

(** Every option is optional; [None] is an option that is not given. *)
Record NcdsHtmlGenerationOptions : Type := {
  includeCSS : option bool;
  includeComments : option bool;
  phpNamingConvention : option bool;
  generateNcdsImports : option bool;
  wrapInContainer : option bool
}.

(** An option read as a condition. *)
Definition enabled (o : option bool) : bool :=
  match o with
  | Some b => b
  | None => false
  end.

(** Modelled from the spec: the declarations of [GlobalVars] and
    [SimplifiedDesign] are not part of the sources.  The global variables
    are a side table of shared style definitions keyed by identifier; a
    design carries its top-level nodes and that table. *)
Record GlobalVars : Type := {
  styles : list (string * value)
}.

Record SimplifiedDesign : Type := {
  nodes : list SimplifiedNode;
  design_globalVars : GlobalVars
}.

(** What [generateFromDesign] returns; an absent [css] or [imports] is
    [undefined]. *)
Record GeneratedNcdsHtml : Type := {
  html : string;
  css : option string;
  imports : option (list string);
  componentUsage : list (string * Z)
}.

Section Templates.

(** The two quantities of the progress circle that are computed in floating
    point, as the text their interpolation yields:
    [2 * Math.PI * radius], given the radius, and
    [circumference - (progress / 100) * circumference], given the radius and
    the progress. *)
Variable circumferenceText : number -> string.
Variable strokeDashoffsetText : number -> number -> string.

Definition generateButtonHtml (id className : string)
  (props : list (string * value)) (children : string)
  (node : SimplifiedNode) : string :=
  let type := js_or (get "type" props) (VString "button") in
  let size := js_or (get "size" props) (VString "xs") in
  let hierarchy := js_or (get "hierarchy" props) (VString "primary") in
  let disabled := if truthy (get "disabled" props) then " disabled" else "" in
  let buttonClass :=
    "ncua-btn ncua-btn--" ++ toStr hierarchy ++ " ncua-btn--" ++ toStr size in
  let content :=
    toStr (js_or (js_or (js_or (get "label" props) (VString children))
                    (ofText (text node))) (VString "Button")) in
  let content := q "<span class=~ncua-btn__label~>" ++ content ++ "</span>" in
  let content :=
    if truthy (get "leadingIcon" props)
    then q "<i class=~ncua-icon~>" ++ toStr (get "leadingIcon" props)
         ++ "</i>" ++ content
    else content in
  let content :=
    if truthy (get "trailingIcon" props)
    then content ++ q "<i class=~ncua-icon~>"
         ++ toStr (get "trailingIcon" props) ++ "</i>"
    else content in
  "<button" ++ idAttr id ++ q " class=~" ++ buttonClass ++ q "~ type=~"
  ++ toStr type ++ dq ++ disabled ++ ">" ++ content ++ "</button>".

Definition generateInputHtml (id className : string)
  (props : list (string * value)) (node : SimplifiedNode) : string :=
  let type := js_or (get "type" props) (VString "text") in
  let size := js_or (get "size" props) (VString "xs") in
  let placeholder :=
    js_or (get "placeholder" props) (VString "텍스트를 입력하세요") in
  let required := if truthy (get "required" props) then " required" else "" in
  let disabled := if truthy (get "disabled" props) then " disabled" else "" in
  let value :=
    if truthy (get "value" props)
    then q " value=~" ++ toStr (get "value" props) ++ dq else "" in
  lines
    [""
    ; q "<div class=~ncua-input ncua-input--" ++ toStr size ++ q "~>"
    ; q "  <div class=~ncua-input__content~>"
    ; q "    <div class=~ncua-input__field ncua-input__field--" ++ toStr size
      ++ q "~>"
    ; "      <input" ++ idAttr id ++ q " placeholder=~" ++ toStr placeholder
      ++ q "~ type=~" ++ toStr type ++ dq ++ value ++ required ++ disabled
      ++ " />"
    ; "    </div>"
    ; "  </div>"
    ; "</div>" ].

Definition generateCheckboxHtml (id className : string)
  (props : list (string * value)) (node : SimplifiedNode) : string :=
  let checked := if truthy (get "checked" props) then " checked" else "" in
  let disabled := if truthy (get "disabled" props) then " disabled" else "" in
  let size := js_or (get "size" props) (VString "xs") in
  let label :=
    js_or (js_or (get "label" props) (ofText (text node)))
      (VString "Checkbox") in
  lines
    [""
    ; q "<label class=~ncua-checkbox-field ncua-checkbox-field--"
      ++ toStr size ++ (if truthy label then " has-text" else "") ++ q "~>"
    ; q "  <span class=~ncua-checkbox-input ncua-checkbox-input--"
      ++ toStr size ++ (if nonEmpty disabled then " is-disabled" else "")
      ++ q "~>"
    ; "    <input" ++ idAttr id
      ++ q " class=~ncua-checkbox-field__input~ type=~checkbox~" ++ checked
      ++ disabled ++ " />"
    ; q "    <span class=~ncua-checkbox-input__ico~></span>"
    ; "  </span>"
    ; "  " ++ (if truthy label
               then q "<span><span class=~ncua-checkbox-field__text~>"
                    ++ toStr label ++ "</span></span>"
               else "")
    ; "</label>" ].

Definition generateRadioHtml (id className : string)
  (props : list (string * value)) (node : SimplifiedNode) : string :=
  let checked := if truthy (get "checked" props) then " checked" else "" in
  let disabled := if truthy (get "disabled" props) then " disabled" else "" in
  let size := js_or (get "size" props) (VString "xs") in
  let name := js_or (get "name" props) (VString "radio-group") in
  let label :=
    js_or (js_or (get "label" props) (ofText (text node)))
      (VString "Radio") in
  lines
    [""
    ; q "<label class=~ncua-radio-field ncua-radio-field--"
      ++ toStr size ++ (if truthy label then " has-text" else "") ++ q "~>"
    ; q "  <span class=~ncua-radio-input ncua-radio-input--"
      ++ toStr size ++ (if nonEmpty disabled then " is-disabled" else "")
      ++ q "~>"
    ; "    <input" ++ idAttr id
      ++ q " class=~ncua-radio-field__input~ type=~radio~ name=~"
      ++ toStr name ++ dq ++ checked ++ disabled ++ " />"
    ; q "    <span class=~ncua-radio-input__ico~></span>"
    ; "  </span>"
    ; "  " ++ (if truthy label
               then q "<span><span class=~ncua-radio-field__text~>"
                    ++ toStr label ++ "</span></span>"
               else "")
    ; "</label>" ].

(** The [forEach] of [generateSelectHtml]: one option per child that has
    text, its value the 1-based position of the child among all children. *)
Fixpoint selectOptions (cs : list SimplifiedNode) (index : nat)
  (options : string) : string :=
  match cs with
  | [] => options
  | child :: rest =>
      selectOptions rest (S index)
        (if truthy (ofText (text child))
         then options ++ q "<option value=~"
              ++ Z_toString (Z.of_nat (index + 1)) ++ q "~>"
              ++ toStr (ofText (text child)) ++ "</option>"
         else options)
  end.

Definition generateSelectHtml (id className : string)
  (props : list (string * value)) (node : SimplifiedNode) : result string :=
  let disabled := if truthy (get "disabled" props) then " disabled" else "" in
  let required := if truthy (get "required" props) then " required" else "" in
  let size := js_or (get "size" props) (VString "md") in
  let placeholder :=
    js_or (get "placeholder" props) (VString "Select an option") in
  let destructive :=
    if truthy (get "destructive" props) then " destructive" else "" in
  let options :=
    q "<option value=~~ selected>" ++ toStr placeholder ++ "</option>" in
  options <-
    (if isSome (children node)
     then cs <- deref (children node) ;; Ok (selectOptions cs 0 options)
     else Ok options) ;;
  Ok (lines
        [""
        ; q "<span class=~ncua-select" ++ destructive ++ q "~>"
        ; q "  <span class=~ncua-select__content ncua-select--" ++ toStr size
          ++ q "~>"
        ; "    <select" ++ idAttr id ++ q " class=~ncua-select__tag~"
          ++ disabled ++ required ++ ">"
        ; "      " ++ options
        ; "    </select>"
        ; "  </span>"
        ; "</span>" ]).

Definition generateBadgeHtml (id className : string)
  (props : list (string * value)) (node : SimplifiedNode) : string :=
  let label :=
    js_or (js_or (get "label" props) (ofText (text node)))
      (VString "Badge") in
  let type := js_or (get "type" props) (VString "filled") in
  let color := js_or (get "color" props) (VString "gray") in
  let size := js_or (get "size" props) (VString "md") in
  lines
    [""
    ; "<span" ++ idAttr id ++ q " class=~ncua-badge ncua-badge--"
      ++ toStr type ++ " ncua-badge--" ++ toStr color ++ " ncua-badge--"
      ++ toStr size ++ q "~>"
    ; q "  <span class=~ncua-badge__label~>" ++ toStr label ++ "</span>"
    ; "</span>" ].

Definition generateModalHtml (id className : string)
  (props : list (string * value)) (children : string)
  (node : SimplifiedNode) : string :=
  let title := js_or (get "title" props) (VString "Modal Title") in
  let subtitle := js_or (get "subtitle" props) (VString "") in
  let content :=
    js_or (js_or (VString children) (ofText (text node)))
      (VString "Modal content") in
  let size := js_or (get "size" props) (VString "md") in
  lines
    [""
    ; "<div" ++ idAttr id ++ q " class=~ncua-modal-backdrop~>"
    ; q "  <div class=~ncua-modal ncua-modal--" ++ toStr size ++ q "~>"
    ; q "    <div class=~ncua-modal__header ncua-modal__header--left ncua-modal__header--close-button~>"
    ; q "      <div class=~ncua-modal__title~>"
    ; q "        <div class=~ncua-modal__title-text~>" ++ toStr title
      ++ "</div>"
    ; "        " ++ (if truthy subtitle
                     then q "<div class=~ncua-modal__title-subtitle~>"
                          ++ toStr subtitle ++ "</div>"
                     else "")
    ; "      </div>"
    ; q "      <button class=~ncua-modal__close-button~ type=~button~>&times;</button>"
    ; "    </div>"
    ; q "    <div class=~ncua-modal__header-divider~></div>"
    ; q "    <div class=~ncua-modal__content~>"
    ; "      " ++ toStr content
    ; "    </div>"
    ; q "    <div class=~ncua-modal__actions-divider~></div>"
    ; q "    <div class=~ncua-modal__actions-wrapper~>"
    ; q "      <div class=~ncua-modal__actions ncua-modal__actions--horizontal ncua-modal__actions--right~>"
    ; q "        <button class=~ncua-btn ncua-btn--secondary-gray ncua-btn--sm~ type=~button~>"
    ; q "          <span class=~ncua-btn__label~>취소</span>"
    ; "        </button>"
    ; q "        <button class=~ncua-btn ncua-btn--primary ncua-btn--sm~ type=~button~>"
    ; q "          <span class=~ncua-btn__label~>확인</span>"
    ; "        </button>"
    ; "      </div>"
    ; "    </div>"
    ; "  </div>"
    ; "</div>" ].

Definition generateTabHtml (id className : string)
  (props : list (string * value)) (node : SimplifiedNode) : result string :=
  let tabs :=
    js_or (get "tabs" props)
      (VArray [VObject [("label", VString "탭 1"); ("isActive", VBool true)];
               VObject [("label", VString "탭 2"); ("isActive", VBool false)]])
  in
  let type := js_or (get "type" props) (VString "button-primary") in
  let size := js_or (get "size" props) (VString "sm") in
  let fullWidth := js_or (get "fullWidth" props) (VBool false) in
  tabButtons <-
    array_map tabs (fun index tab =>
      active <- member tab "isActive" ;;
      label <- member tab "label" ;;
      let isActive := if truthy active then " is-active" else "" in
      Ok (lines
            [""
            ; q "        <div class=~swiper-slide~>"
            ; q "          <button class=~ncua-tab-button ncua-tab-button--"
              ++ toStr type ++ " ncua-tab-button--" ++ toStr size ++ isActive
              ++ q "~ data-tab=~" ++ Z_toString (Z.of_nat index) ++ q "~>"
            ; q "            <span class=~ncua-tab-button__label~>"
              ++ toStr label ++ "</span>"
            ; "          </button>"
            ; "        </div>" ])) ;;
  Ok (lines
        [""
        ; "<div" ++ idAttr id
          ++ q " class=~ncua-horizontal-tab ncua-horizontal-tab--"
          ++ toStr type
          ++ (if truthy fullWidth then " ncua-horizontal-tab--fullWidth"
              else "")
          ++ q "~>"
        ; q "  <div class=~swiper~ style=~overflow: visible;~>"
        ; q "    <div class=~swiper-wrapper~>"
        ; "      " ++ join "" tabButtons
        ; "    </div>"
        ; "  </div>"
        ; "</div>" ]).

Definition generateNotificationHtml (id className : string)
  (props : list (string * value)) (node : SimplifiedNode) : string :=
  let title := js_or (get "title" props) (VString "Notification") in
  let description :=
    js_or (js_or (get "description" props) (ofText (text node)))
      (VString "") in
  let color := js_or (get "color" props) (VString "neutral") in
  lines
    [""
    ; "<div" ++ idAttr id
      ++ q " class=~ncua-floating-notification ncua-floating-notification--"
      ++ toStr color ++ q "~ role=~alert~>"
    ; q "  <div class=~ncua-floating-notification__content~>"
    ; q "    <div class=~ncua-floating-notification__container~>"
    ; q "      <div class=~ncua-floating-notification__text-container~>"
    ; q "        <div class=~ncua-floating-notification__title-wrapper~>"
    ; q "          <span class=~ncua-floating-notification__title~>"
      ++ toStr title ++ "</span>"
    ; "        </div>"
    ; "        "
      ++ (if truthy description
          then q "<span class=~ncua-floating-notification__supporting-text~>"
               ++ toStr description ++ "</span>"
          else "")
    ; "      </div>"
    ; "    </div>"
    ; "  </div>"
    ; q "  <button class=~ncua-floating-notification__close-button~ type=~button~>&times;</button>"
    ; "</div>" ].

(** The clamp [Math.min(Math.max(props.progress || 0, 0), 100)] *)
Definition clampProgress (props : list (string * value)) : number :=
  Math_min
    (Math_max (ToNumber (js_or (get "progress" props) (VNumber 0))) (Some 0%Z))
    (Some 100%Z).

(** The template literal of [generateProgressBarHtml], given the values it
    interpolates. *)
Definition progressBarMarkup (id : string) (label showValue : value)
  (progress : number) : string :=
  lines
    [""
    ; "<div" ++ idAttr id ++ q " class=~ncua-progress-bar ncua-progress-bar-"
      ++ toStr label ++ q "~>"
    ; q "  <div class=~ncua-progress-bar__content~>"
    ; q "    <div class=~ncua-progress-bar__bar~>"
    ; q "      <div class=~ncua-progress-bar__fill~ style=~width: "
      ++ Number_toString progress ++ q "%~ aria-valuenow=~"
      ++ Number_toString progress
      ++ q "~ aria-valuemin=~0~ aria-valuemax=~100~></div>"
    ; "    </div>"
    ; "    " ++ (if truthy showValue && strictEqString label "right"
                 then q "<span class=~ncua-progress-bar__label ncua-progress-bar__label-right~>"
                      ++ Number_toString progress ++ "%</span>"
                 else "")
    ; "  </div>"
    ; "  " ++ (if truthy showValue && strictEqString label "bottom"
               then q "<span class=~ncua-progress-bar__label ncua-progress-bar__label-bottom~>"
                    ++ Number_toString progress ++ "%</span>"
               else "")
    ; "</div>" ].

Definition generateProgressBarHtml (id className : string)
  (props : list (string * value)) (node : SimplifiedNode) : string :=
  let progress := clampProgress props in
  let label := js_or (get "label" props) (VString "none") in
  let showValue := js_or (get "showValue" props) (VBool false) in
  progressBarMarkup id label showValue progress.

(** The pages [start], [start + 1], ..., [end] of the [for] loop; none when
    a bound is NaN. *)
Definition pageRange (start end_ : number) : list Z :=
  match start, end_ with
  | Some s, Some e =>
      map (fun k => (s + Z.of_nat k)%Z) (seq 0 (Z.to_nat (e - s + 1)))
  | _, _ => []
  end.

Definition generatePaginationHtml (id className : string)
  (props : list (string * value)) (node : SimplifiedNode) : string :=
  let currentPage := js_or (get "currentPage" props) (VNumber 1) in
  let totalPages := js_or (get "totalPages" props) (VNumber 10) in
  let breakPoint := js_or (get "breakPoint" props) (VString "pc") in
  let showJumpButtons := num_gt (ToNumber totalPages) (Some 5%Z) in
  let start :=
    Math_max (Some 1%Z) (num_sub (ToNumber currentPage) (Some 2%Z)) in
  let end_ := Math_min (ToNumber totalPages) (num_add start (Some 4%Z)) in
  let pages :=
    map (fun i =>
           let isActive :=
             if strictEqNumber currentPage (Some i) then " is-current"
             else "" in
           lines
             [""
             ; q "        <li class=~ncua-pagination__item~>"
             ; q "          <button class=~ncua-pagination__page-num"
               ++ isActive ++ q "~>" ++ Z_toString i ++ "</button>"
             ; "        </li>" ])
      (pageRange start end_) in
  lines
    [""
    ; "<nav" ++ idAttr id ++ q " class=~ncua-pagination ncua-pagination--"
      ++ toStr breakPoint ++ q "~>"
    ; "  "
      ++ (if showJumpButtons
          then lines
                 [""
                 ; q "    <button class=~ncua-pagination__nav-btn ncua-pagination__nav-btn--first~ "
                   ++ (if strictEqNumber currentPage (Some 1%Z)
                       then "disabled" else "") ++ ">"
                 ; q "      <span class=~ncua-pagination__nav-btn-text~>처음</span>"
                 ; "    </button>"
                 ; q "    <button class=~ncua-pagination__nav-btn ncua-pagination__nav-btn--prev~ "
                   ++ (if strictEqNumber currentPage (Some 1%Z)
                       then "disabled" else "") ++ ">"
                 ; q "      <span class=~ncua-pagination__nav-btn-text~>이전</span>"
                 ; "    </button>" ]
          else "")
    ; q "  <ul class=~ncua-pagination__list~>"
    ; "    " ++ join "" pages
    ; "  </ul>"
    ; q "  <p class=~ncua-pagination__page-info~>"
    ; q "    <em class=~ncua-pagination__current-num~>" ++ toStr currentPage
      ++ "</em> / " ++ toStr totalPages
    ; "  </p>"
    ; "  "
      ++ (if showJumpButtons
          then lines
                 [""
                 ; q "    <button class=~ncua-pagination__nav-btn ncua-pagination__nav-btn--next~ "
                   ++ (if strictEq currentPage totalPages
                       then "disabled" else "") ++ ">"
                 ; q "      <span class=~ncua-pagination__nav-btn-text~>다음</span>"
                 ; "    </button>"
                 ; q "    <button class=~ncua-pagination__nav-btn ncua-pagination__nav-btn--last~ "
                   ++ (if strictEq currentPage totalPages
                       then "disabled" else "") ++ ">"
                 ; q "      <span class=~ncua-pagination__nav-btn-text~>마지막</span>"
                 ; "    </button>" ]
          else "")
    ; "</nav>" ].

Definition generateVerticalTabHtml (id className : string)
  (props : list (string * value)) (node : SimplifiedNode) : result string :=
  let tabs :=
    js_or (get "tabs" props)
      (VArray [VObject [("id", VString "tab1"); ("label", VString "탭 1");
                        ("isActive", VBool true)];
               VObject [("id", VString "tab2"); ("label", VString "탭 2");
                        ("isActive", VBool false)]]) in
  let type := js_or (get "type" props) (VString "button-primary") in
  let breakPoint := js_or (get "breakPoint" props) (VString "pc") in
  tabButtons <-
    array_map tabs (fun _ tab =>
      active <- member tab "isActive" ;;
      tabId <- member tab "id" ;;
      label <- member tab "label" ;;
      let isActive := if truthy active then " is-active" else "" in
      Ok (lines
            [""
            ; q "        <button class=~ncua-tab-button ncua-tab-button--"
              ++ toStr type ++ " ncua-tab-button--sm" ++ isActive
              ++ q "~ data-tab=~" ++ toStr tabId ++ q "~>"
            ; q "          <span class=~ncua-tab-button__label~>"
              ++ toStr label ++ "</span>"
            ; "        </button>" ])) ;;
  Ok (lines
        [""
        ; "<div" ++ idAttr id
          ++ q " class=~ncua-vertical-tab ncua-vertical-tab--" ++ toStr type
          ++ q "~>"
        ; q "  <div class=~ncua-vertical-tab__list~>"
        ; "    " ++ join "" tabButtons
        ; "  </div>"
        ; "</div>" ]).

(** The template literal of [generateProgressCircleHtml], given the values
    it interpolates. *)
Definition progressCircleMarkup (id : string) (size strokeWidth : value)
  (radius progress : number) : string :=
  lines
    [""
    ; "<div" ++ idAttr id
      ++ q " class=~ncua-progress-circle ncua-progress-circle--"
      ++ toStr size ++ q "~>"
    ; q "  <svg class=~ncua-progress-circle__svg~ viewBox=~0 0 100 100~>"
    ; q "    <circle class=~ncua-progress-circle__bg~ cx=~50~ cy=~50~ r=~"
      ++ Number_toString radius ++ q "~ stroke-width=~" ++ toStr strokeWidth
      ++ q "~></circle>"
    ; q "    <circle class=~ncua-progress-circle__progress~ cx=~50~ cy=~50~ r=~"
      ++ Number_toString radius ++ q "~ stroke-width=~" ++ toStr strokeWidth
      ++ q "~ "
    ; q "            style=~stroke-dasharray: " ++ circumferenceText radius
      ++ "; stroke-dashoffset: " ++ strokeDashoffsetText radius progress
      ++ q ";~></circle>"
    ; "  </svg>"
    ; q "  <div class=~ncua-progress-circle__text~>"
      ++ Number_toString progress ++ "%</div>"
    ; "</div>" ].

Definition generateProgressCircleHtml (id className : string)
  (props : list (string * value)) (node : SimplifiedNode) : string :=
  let progress := clampProgress props in
  let size := js_or (get "size" props) (VString "md") in
  let strokeWidth := js_or (get "strokeWidth" props) (VNumber 4) in
  let radius := num_sub (Some 50%Z) (ToNumber strokeWidth) in
  progressCircleMarkup id size strokeWidth radius progress.

Definition generateSpinnerHtml (id className : string)
  (props : list (string * value)) (node : SimplifiedNode) : string :=
  let size := js_or (get "size" props) (VString "md") in
  let text' :=
    js_or (js_or (get "text" props) (ofText (text node))) (VString "") in
  let backdrop := js_or (get "backdrop" props) (VBool false) in
  let spinnerContent :=
    lines
      [""
      ; "<div" ++ idAttr id ++ q " class=~ncua-spinner ncua-spinner--"
        ++ toStr size ++ q "~>"
      ; q "  <div class=~ncua-spinner__icon~></div>"
      ; "  " ++ (if truthy text'
                 then q "<p class=~ncua-spinner__text~>" ++ toStr text'
                      ++ "</p>"
                 else "")
      ; "</div>" ] in
  if truthy backdrop
  then lines
         [""
         ; q "<div class=~ncua-spinner-backdrop~>"
         ; "  " ++ spinnerContent
         ; "</div>" ]
  else spinnerContent.

Definition generateTagHtml (id className : string)
  (props : list (string * value)) (node : SimplifiedNode) : string :=
  let label :=
    js_or (js_or (get "label" props) (ofText (text node))) (VString "Tag") in
  let color := js_or (get "color" props) (VString "gray") in
  let size := js_or (get "size" props) (VString "md") in
  let removable := js_or (get "removable" props) (VBool false) in
  lines
    [""
    ; "<span" ++ idAttr id ++ q " class=~ncua-tag ncua-tag--" ++ toStr color
      ++ " ncua-tag--" ++ toStr size ++ q "~>"
    ; q "  <span class=~ncua-tag__label~>" ++ toStr label ++ "</span>"
    ; "  " ++ (if truthy removable
               then q "<button class=~ncua-tag__remove~ type=~button~>&times;</button>"
               else "")
    ; "</span>" ].

Definition generateTooltipHtml (id className : string)
  (props : list (string * value)) (children : string)
  (node : SimplifiedNode) : string :=
  let title := js_or (get "title" props) (VString "Tooltip") in
  let content :=
    js_or (js_or (js_or (get "content" props) (VString children))
             (ofText (text node))) (VString "") in
  let position := js_or (get "position" props) (VString "top") in
  let tooltipType := js_or (get "tooltipType" props) (VString "dark") in
  lines
    [""
    ; "<span" ++ idAttr id ++ q " class=~ncua-tooltip ncua-tooltip--"
      ++ toStr position ++ q "~>"
    ; q "  <span class=~ncua-tooltip__trigger~>?</span>"
    ; q "  <span class=~ncua-tooltip__bg ncua-tooltip__bg--"
      ++ toStr tooltipType ++ " ncua-tooltip__bg--" ++ toStr position
      ++ q "~>"
    ; "    " ++ (if truthy title
                 then q "<span class=~ncua-tooltip__title~>" ++ toStr title
                      ++ "</span>"
                 else "")
    ; "    " ++ (if truthy content
                 then q "<span class=~ncua-tooltip__content~>"
                      ++ toStr content ++ "</span>"
                 else "")
    ; "  </span>"
    ; "</span>" ].

Definition generateSliderHtml (id className : string)
  (props : list (string * value)) (node : SimplifiedNode) : string :=
  let value := js_or (get "value" props) (VNumber 50) in
  let min := js_or (get "min" props) (VNumber 0) in
  let max := js_or (get "max" props) (VNumber 100) in
  let size := js_or (get "size" props) (VString "md") in
  lines
    [""
    ; "<div" ++ idAttr id ++ q " class=~ncua-slider ncua-slider--"
      ++ toStr size ++ q "~>"
    ; q "  <input class=~ncua-slider__input~ type=~range~ min=~" ++ toStr min
      ++ q "~ max=~" ++ toStr max ++ q "~ value=~" ++ toStr value
      ++ q "~ />"
    ; "</div>" ].

Definition generateToggleHtml (id className : string)
  (props : list (string * value)) (node : SimplifiedNode) : string :=
  let checked := js_or (get "checked" props) (VBool false) in
  let disabled := js_or (get "disabled" props) (VBool false) in
  let size := js_or (get "size" props) (VString "md") in
  let text' :=
    js_or (js_or (get "text" props) (ofText (text node))) (VString "") in
  lines
    [""
    ; q "<label class=~ncua-toggle ncua-toggle--" ++ toStr size
      ++ (if truthy disabled then " is-disabled" else "") ++ q "~>"
    ; "  <input" ++ idAttr id
      ++ q " class=~ncua-toggle__input~ type=~checkbox~"
      ++ (if truthy checked then " checked" else "")
      ++ (if truthy disabled then " disabled" else "") ++ " />"
    ; q "  <span class=~ncua-toggle__switch~></span>"
    ; "  " ++ (if truthy text'
               then q "<span class=~ncua-toggle__text~>" ++ toStr text'
                    ++ "</span>"
               else "")
    ; "</label>" ].

Definition generateBreadcrumbHtml (id className : string)
  (props : list (string * value)) (node : SimplifiedNode) : result string :=
  let items :=
    js_or (get "items" props)
      (VArray [VObject [("label", VString "Home"); ("href", VString "/")];
               VObject [("label", VString "Page");
                        ("href", VString "/page")]]) in
  breadcrumbItems <-
    array_map items (fun index item =>
      let isLast :=
        (Z.of_nat index =? Z.of_nat (array_length items) - 1)%Z in
      inner <-
        (if isLast
         then label <- member item "label" ;;
              Ok (q "<span class=~ncua-breadcrumb__current~>" ++ toStr label
                  ++ "</span>")
         else href <- member item "href" ;;
              label <- member item "label" ;;
              Ok (q "<a class=~ncua-breadcrumb__link~ href=~"
                  ++ toStr (js_or href (VString "#")) ++ q "~>"
                  ++ toStr label ++ "</a>")) ;;
      Ok (lines
            [""
            ; q "        <li class=~ncua-breadcrumb__item~>"
            ; "          " ++ inner
            ; "        </li>" ])) ;;
  Ok (lines
        [""
        ; "<nav" ++ idAttr id ++ q " class=~ncua-breadcrumb~>"
        ; q "  <ol class=~ncua-breadcrumb__list~>"
        ; "    " ++ join "" breadcrumbItems
        ; "  </ol>"
        ; "</nav>" ]).

Definition generateDividerHtml (id className : string)
  (props : list (string * value)) (node : SimplifiedNode) : string :=
  let orientation :=
    js_or (get "orientation" props) (VString "horizontal") in
  let text' :=
    js_or (js_or (get "text" props) (ofText (text node))) (VString "") in
  if truthy text'
  then lines
         [""
         ; "<div" ++ idAttr id ++ q " class=~ncua-divider ncua-divider--"
           ++ toStr orientation ++ q " ncua-divider--text~>"
         ; q "  <span class=~ncua-divider__text~>" ++ toStr text'
           ++ "</span>"
         ; "</div>" ]
  else "<hr" ++ idAttr id ++ q " class=~ncua-divider ncua-divider--"
       ++ toStr orientation ++ q "~ />".

Definition generateDropdownHtml (id className : string)
  (props : list (string * value)) (children : string)
  (node : SimplifiedNode) : result string :=
  let label := js_or (get "label" props) (VString "Dropdown") in
  let items :=
    js_or (get "items" props)
      (VArray [VObject [("label", VString "옵션 1"); ("value", VString "1")];
               VObject [("label", VString "옵션 2"); ("value", VString "2")]])
  in
  dropdownItems <-
    array_map items (fun _ item =>
      itemValue <- member item "value" ;;
      itemLabel <- member item "label" ;;
      Ok (lines
            [ q "<li class=~ncua-dropdown__item~>"
            ; q "        <button class=~ncua-dropdown__button~ type=~button~ data-value=~"
              ++ toStr itemValue ++ q "~>" ++ toStr itemLabel ++ "</button>"
            ; "      </li>" ])) ;;
  Ok (lines
        [""
        ; "<div" ++ idAttr id ++ q " class=~ncua-dropdown~>"
        ; q "  <button class=~ncua-dropdown__trigger~ type=~button~>"
          ++ toStr label ++ "</button>"
        ; q "  <ul class=~ncua-dropdown__menu~>"
        ; "    " ++ join "" dropdownItems
        ; "  </ul>"
        ; "</div>" ]).

Definition generateEmptyStateHtml (id className : string)
  (props : list (string * value)) (children : string)
  (node : SimplifiedNode) : string :=
  let title := js_or (get "title" props) (VString "Empty State") in
  let description :=
    js_or (js_or (js_or (get "description" props) (VString children))
             (ofText (text node))) (VString "") in
  let iconName := js_or (get "iconName" props) (VString "inbox") in
  lines
    [""
    ; "<div" ++ idAttr id ++ q " class=~ncua-empty-state~>"
    ; q "  <div class=~ncua-empty-state__icon~>"
    ; q "    <svg class=~ncua-featured-icon ncua-featured-icon--xl ncua-featured-icon--gray-modern~ viewBox=~0 0 24 24~>"
    ; q "      <path d=~M3 3h18v18H3V3z~ stroke=~currentColor~ fill=~none~/>"
    ; "    </svg>"
    ; "  </div>"
    ; q "  <div class=~ncua-empty-state__content~>"
    ; q "    <h3 class=~ncua-empty-state__title~>" ++ toStr title ++ "</h3>"
    ; "    " ++ (if truthy description
                 then q "<p class=~ncua-empty-state__description~>"
                      ++ toStr description ++ "</p>"
                 else "")
    ; "  </div>"
    ; "</div>" ].

Definition generateFeaturedIconHtml (id className : string)
  (props : list (string * value)) (node : SimplifiedNode) : string :=
  let name := js_or (get "name" props) (VString "star") in
  let size := js_or (get "size" props) (VString "md") in
  let color := js_or (get "color" props) (VString "primary") in
  let theme := js_or (get "theme" props) (VString "light") in
  lines
    [""
    ; "<div" ++ idAttr id
      ++ q " class=~ncua-featured-icon ncua-featured-icon--" ++ toStr size
      ++ " ncua-featured-icon--" ++ toStr color ++ "-" ++ toStr theme
      ++ q "~>"
    ; q "  <svg viewBox=~0 0 24 24~>"
    ; q "    <path d=~M12 2l3.09 6.26L22 9.27l-5 4.87 1.18 6.88L12 17.77l-6.18 3.25L7 14.14 2 9.27l6.91-1.01L12 2z~ fill=~currentColor~/>"
    ; "  </svg>"
    ; "</div>" ].

Definition generateGenericComponentHtml (mapping : NcdsComponentMapping)
  (id className : string) (props : list (string * value))
  (children : string) : string :=
  let tag := if nonEmpty (htmlTag mapping) then htmlTag mapping else "div" in
  "<" ++ tag ++ q " id=~" ++ id ++ q "~ class=~" ++ className ++ q "~>"
  ++ children ++ "</" ++ tag ++ ">".

(** *** Identifiers, class names and inline styles *)

Definition isLowerAlnum (c : ascii) : bool :=
  let n := nat_of_ascii c in
  ((97 <=? n)%nat && (n <=? 122)%nat) || ((48 <=? n)%nat && (n <=? 57)%nat).

(** [.replace(/[^a-z0-9]/g, '_')] *)
Fixpoint replaceNonAlnum (s : string) : string :=
  match s with
  | EmptyString => EmptyString
  | String c rest =>
      String (if isLowerAlnum c then c else "_"%char) (replaceNonAlnum rest)
  end.

(** [.replace(/_+/g, '_')] *)
Fixpoint collapseUnderscores (s : string) : string :=
  match s with
  | EmptyString => EmptyString
  | String c rest =>
      if (c =? "_")%char
      then match rest with
           | String c' _ =>
               if (c' =? "_")%char then collapseUnderscores rest
               else String c (collapseUnderscores rest)
           | EmptyString => String c EmptyString
           end
      else String c (collapseUnderscores rest)
  end.

Definition stripLeadingUnderscore (s : string) : string :=
  match s with
  | String c rest => if (c =? "_")%char then rest else s
  | EmptyString => EmptyString
  end.

Fixpoint stripTrailingUnderscore (s : string) : string :=
  match s with
  | EmptyString => EmptyString
  | String c EmptyString => if (c =? "_")%char then EmptyString else s
  | String c rest => String c (stripTrailingUnderscore rest)
  end.

(** [.replace(/^_|_$/g, '')] *)
Definition stripUnderscores (s : string) : string :=
  stripTrailingUnderscore (stripLeadingUnderscore s).

Definition toPhpNaming (name : string) : string :=
  stripUnderscores (collapseUnderscores (replaceNonAlnum (toLowerCase name))).

Definition getHtmlTag (node : SimplifiedNode) : string :=
  if type node =? "TEXT" then "span"
  else if type node =? "FRAME" then "div"
  else if type node =? "GROUP" then "div"
  else if type node =? "RECTANGLE" then "div"
  else if type node =? "ELLIPSE" then "div"
  else if type node =? "IMAGE" then "img"
  else "div".

Definition generateClassName (mapping : NcdsComponentMapping) : string :=
  let baseClass := className mapping in
  let sizeClass :=
    if truthy (get "size" (props mapping))
    then className mapping ++ "--" ++ toStr (get "size" (props mapping))
    else "" in
  let themeClass :=
    if truthy (get "hierarchy" (props mapping))
    then className mapping ++ "--" ++ toStr (get "hierarchy" (props mapping))
    else "" in
  join " " (filter nonEmpty [baseClass; sizeClass; themeClass]).

Definition generateRegularClassName (node : SimplifiedNode) : string :=
  "figma-" ++ toLowerCase (type node).

Definition generateNcdsProps (props : list (string * value))
  : list (string * value) := props.

Definition generateInlineStyles (node : SimplifiedNode) : string :=
  let styles : list string := [] in
  let styles :=
    match opacity node with
    | Some o =>
        if negb (o =? 1)%Z
        then (styles ++ [("opacity: " ++ Z_toString o)%string])%list
        else styles
    | None => styles
    end in
  let styles :=
    match borderRadius node with
    | Some r =>
        if nonEmpty r then (styles ++ [("border-radius: " ++ r)%string])%list
        else styles
    | None => styles
    end in
  join "; " styles.

Definition generateNcdsCss : string :=
  lines
    [""
    ; "/* NCDS UI Admin Essential Resources */"
    ; q "<link rel=~stylesheet~ href=~https://fe-sdk.cdn-nhncommerce.com/@ncds/ui-admin/1.0/main.min.css~ />"
    ; q "<script type=~text/javascript~ src=~https://fe-sdk.cdn-nhncommerce.com/@ncds/ui-admin/1.0/main.min.js~></script>"
    ; ""
    ; "/* NCDS UI Admin CSS Import */"
    ; "@import '@ncds/ui-admin/dist/ui-admin/assets/styles/style.css';"
    ; ""
    ; "/* Custom styles for generated components */"
    ; ".figma-container {"
    ; "  padding: 20px;"
    ; "  max-width: 1200px;"
    ; "  margin: 0 auto;"
    ; "}"
    ; ""
    ; "/* Additional styles for better component display */"
    ; ".ncua-modal-backdrop {"
    ; "  position: fixed;"
    ; "  top: 0;"
    ; "  left: 0;"
    ; "  right: 0;"
    ; "  bottom: 0;"
    ; "  background-color: rgba(0, 0, 0, 0.5);"
    ; "  display: flex;"
    ; "  align-items: center;"
    ; "  justify-content: center;"
    ; "  z-index: 1000;"
    ; "}"
    ; ""
    ; ".swiper {"
    ; "  overflow: visible !important;"
    ; "}"
    ; ""
    ; ".swiper-wrapper {"
    ; "  display: flex;"
    ; "  gap: 8px;"
    ; "}"
    ; ""
    ; ".swiper-slide {"
    ; "  width: auto;"
    ; "}"
    ; "    " ].

(** The method [wrapInContainer]; the option of that name keeps it. *)
Definition wrapInContainerHtml (html : string) : string :=
  q "<div class=~figma-container~>" ++ nl ++ html ++ nl ++ "</div>".

(** *** The usage accounting of a generator *)

(** [usedComponents] is the [Set], in insertion order; [componentCounter]
    is the object, its keys in insertion order. *)
Record Usage : Type := {
  usedComponents : list string;
  componentCounter : list (string * Z)
}.

Definition noUsage : Usage :=
  {| usedComponents := []; componentCounter := [] |}.

(** [set.add(c)] *)
Definition set_add (c : string) (set : list string) : list string :=
  if existsb (fun k => k =? c) set then set else (set ++ [c])%list.

(** [counter[c]], 0 for a key that is not there. *)
Fixpoint count (c : string) (counter : list (string * Z)) : Z :=
  match counter with
  | [] => 0
  | (k, n) :: rest => if k =? c then n else count c rest
  end.

(** [counter[c] = n] *)
Fixpoint setCount (c : string) (n : Z) (counter : list (string * Z))
  : list (string * Z) :=
  match counter with
  | [] => [(c, n)]
  | (k, m) :: rest =>
      if k =? c then (k, n) :: rest else (k, m) :: setCount c n rest
  end.

Definition recordUsage (c : string) (st : Usage) : Usage :=
  {| usedComponents := set_add c (usedComponents st);
     componentCounter :=
       setCount c (count c (componentCounter st) + 1) (componentCounter st) |}.

(** *** Rendering a tree *)

Section Render.

(** [this.options], and [this.generateNodeHtml] as the methods below call
    it on the children of a node. *)
Variable options : NcdsHtmlGenerationOptions.
Variable self : SimplifiedNode -> Usage -> result (string * Usage).

(** [nodes.map(node => this.generateNodeHtml(node))], left to right. *)
Fixpoint mapNodes (nodes : list SimplifiedNode) (st : Usage)
  : result (list string * Usage) :=
  match nodes with
  | [] => Ok ([], st)
  | node :: rest =>
      r <- self node st ;;
      rs <- mapNodes rest (snd r) ;;
      Ok (fst r :: fst rs, snd rs)
  end.

Definition generateNodesHtml (nodes : list SimplifiedNode) (st : Usage)
  : result (string * Usage) :=
  rs <- mapNodes nodes st ;;
  Ok (join nl (filter trimmedNonEmpty (fst rs)), snd rs).

Definition generateChildren (node : SimplifiedNode) (st : Usage)
  : result (string * Usage) :=
  match children node with
  | None => Ok ("", st)
  | Some cs =>
      if (length cs =? 0)%nat then Ok ("", st) else generateNodesHtml cs st
  end.

Definition generateId (node : SimplifiedNode) : string :=
  if enabled (phpNamingConvention options) then toPhpNaming (name node)
  else id node.

(** The [switch] of [generateNcdsComponentHtml]. *)
Definition componentHtml (mapping : NcdsComponentMapping)
  (id className : string) (props : list (string * value))
  (children : string) (node : SimplifiedNode) : result string :=
  let c := component mapping in
  if c =? "Button" then Ok (generateButtonHtml id className props children node)
  else if c =? "InputBase" then Ok (generateInputHtml id className props node)
  else if c =? "Checkbox" then Ok (generateCheckboxHtml id className props node)
  else if c =? "Radio" then Ok (generateRadioHtml id className props node)
  else if c =? "Select" then generateSelectHtml id className props node
  else if c =? "Badge" then Ok (generateBadgeHtml id className props node)
  else if c =? "Modal"
  then Ok (generateModalHtml id className props children node)
  else if c =? "HorizontalTab" then generateTabHtml id className props node
  else if c =? "Notification"
  then Ok (generateNotificationHtml id className props node)
  else if c =? "ProgressBar"
  then Ok (generateProgressBarHtml id className props node)
  else if c =? "Pagination"
  then Ok (generatePaginationHtml id className props node)
  else if c =? "VerticalTab"
  then generateVerticalTabHtml id className props node
  else if c =? "ProgressCircle"
  then Ok (generateProgressCircleHtml id className props node)
  else if c =? "Spinner" then Ok (generateSpinnerHtml id className props node)
  else if c =? "Tag" then Ok (generateTagHtml id className props node)
  else if c =? "Tooltip"
  then Ok (generateTooltipHtml id className props children node)
  else if c =? "Slider" then Ok (generateSliderHtml id className props node)
  else if c =? "Toggle" then Ok (generateToggleHtml id className props node)
  else if c =? "BreadCrumb"
  then generateBreadcrumbHtml id className props node
  else if c =? "Divider" then Ok (generateDividerHtml id className props node)
  else if c =? "Dropdown"
  then generateDropdownHtml id className props children node
  else if c =? "EmptyState"
  then Ok (generateEmptyStateHtml id className props children node)
  else if c =? "FeaturedIcon"
  then Ok (generateFeaturedIconHtml id className props node)
  else Ok (generateGenericComponentHtml mapping id className props children).

Definition generateNcdsComponentHtml (mapping : NcdsComponentMapping)
  (node : SimplifiedNode) (st : Usage) : result (string * Usage) :=
  let st := recordUsage (component mapping) st in
  let id := generateId node in
  let className := generateClassName mapping in
  let props := generateNcdsProps (props mapping) in
  r <- generateChildren node st ;;
  let children := fst r in
  let html :=
    if enabled (includeComments options)
    then "<!-- NCDS " ++ component mapping ++ ": " ++ name node ++ " -->" ++ nl
    else "" in
  body <- componentHtml mapping id className props children node ;;
  Ok (html ++ body, snd r).

Definition generateRegularHtml (node : SimplifiedNode) (st : Usage)
  : result (string * Usage) :=
  let tag := getHtmlTag node in
  let id := generateId node in
  let className := generateRegularClassName node in
  let styles := generateInlineStyles node in
  r <- generateChildren node st ;;
  let children := fst r in
  let attributes :=
    join " "
      (filter nonEmpty
         [ if nonEmpty id then q "id=~" ++ id ++ dq else ""
         ; if nonEmpty className then q "class=~" ++ className ++ dq else ""
         ; if nonEmpty styles then q "style=~" ++ styles ++ dq else "" ]) in
  let content := "" in
  let content :=
    if truthy (ofText (text node)) then toStr (ofText (text node))
    else content in
  let content := if nonEmpty children then content ++ children else content in
  let openTag :=
    "<" ++ tag ++ (if nonEmpty attributes then " " ++ attributes else "")
    ++ ">" in
  let closeTag := "</" ++ tag ++ ">" in
  Ok (openTag ++ content ++ closeTag, snd r).

(** The body of [generateNodeHtml]. *)
Definition generateNodeHtmlBody (node : SimplifiedNode) (st : Usage)
  : result (string * Usage) :=
  ncdsMapping <- mapToNcdsComponent node ;;
  match ncdsMapping with
  | Some mapping =>
      if validateNcdsMapping mapping
      then generateNcdsComponentHtml mapping node st
      else generateRegularHtml node st
  | None => generateRegularHtml node st
  end.

End Render.

Fixpoint generateNodeHtml (options : NcdsHtmlGenerationOptions)
  (node : SimplifiedNode) (st : Usage) {struct node}
  : result (string * Usage) :=
  generateNodeHtmlBody options (generateNodeHtml options) node st.

(** *** The generator and its entry point *)

Record NcdsHtmlGenerator : Type := {
  globalVars : GlobalVars;
  this_options : NcdsHtmlGenerationOptions;
  usage : Usage
}.

Definition orDefault (o : option bool) : option bool :=
  match o with
  | Some b => Some b
  | None => Some true
  end.

(** The constructor: every option that is not given is on. *)
Definition new_NcdsHtmlGenerator (globalVars : GlobalVars)
  (options : NcdsHtmlGenerationOptions) : NcdsHtmlGenerator :=
  {| globalVars := globalVars;
     this_options :=
       {| includeCSS := orDefault (includeCSS options);
          includeComments := orDefault (includeComments options);
          phpNamingConvention := orDefault (phpNamingConvention options);
          generateNcdsImports := orDefault (generateNcdsImports options);
          wrapInContainer := orDefault (wrapInContainer options) |};
     usage := noUsage |}.

(** [this.usedComponents.clear(); this.componentCounter = {}] *)
Definition clearUsage (this : NcdsHtmlGenerator) : NcdsHtmlGenerator :=
  {| globalVars := globalVars this;
     this_options := this_options this;
     usage := noUsage |}.

(** [generateFromDesign] returns its result and leaves the generator with
    the usage of this run.  The result holds copies of the used kinds and of
    the counter, not the objects of the generator. *)
Definition generateFromDesign (this : NcdsHtmlGenerator)
  (design : SimplifiedDesign)
  : result (GeneratedNcdsHtml * NcdsHtmlGenerator) :=
  let this := clearUsage this in
  let options := this_options this in
  r <- generateNodesHtml (generateNodeHtml options) (nodes design)
         (usage this) ;;
  let html := fst r in
  let this :=
    {| globalVars := globalVars this;
       this_options := options;
       usage := snd r |} in
  let wrappedHtml :=
    if enabled (wrapInContainer options) then wrapInContainerHtml html
    else html in
  let imports :=
    if enabled (generateNcdsImports options)
    then Some (usedComponents (usage this))
    else None in
  let css :=
    if enabled (includeCSS options) then Some generateNcdsCss else None in
  Ok ({| html := wrappedHtml;
         css := css;
         imports := imports;
         componentUsage := componentCounter (usage this) |},
      this).

End Templates.

(** ** Vocabulary of the properties *)

(** The size tokens that [inferSize] looks for. *)
Definition sizeTokens : list string :=
  ["xxs"; "tiny"; "xs"; "small"; "sm"; "lg"; "large"; "xl"; "xlarge"; "2xl";
   "xxlarge"].

(** The sizes that [inferSize] names. *)
Definition sizeNames : list string :=
  ["xxs"; "xs"; "sm"; "lg"; "xl"; "2xl"; "md"].

(** A child is text-bearing when its text is present and not empty. *)
Definition textBearing (child : SimplifiedNode) : bool :=
  truthy (ofText (text child)).

(** The label/value pair of the text-bearing child [child] at the 0-based
    position [index]. *)
Definition dropdownItem (index : nat) (child : SimplifiedNode) : value :=
  VObject [("label", ofText (text child));
           ("value", VString (Z_toString (Z.of_nat index + 1)))].

(** A node all of whose optional fields are absent. *)
Definition sparse (node : SimplifiedNode) : Prop :=
  text node = None /\ layout node = None /\ opacity node = None
  /\ borderRadius node = None /\ children node = None.

(** The supported kinds, as the specification enumerates them. *)
Definition supportedKinds : list string :=
  ["Button"; "InputBase"; "Checkbox"; "Radio"; "Select"; "Badge"; "Modal";
   "HorizontalTab"; "VerticalTab"; "Pagination"; "ProgressBar";
   "ProgressCircle"; "Notification"; "Spinner"; "Tag"; "Tooltip"; "Slider";
   "Toggle"; "BreadCrumb"; "Divider"; "Dropdown"; "EmptyState";
   "FeaturedIcon"].

(** *** Sample inputs *)

Definition sampleBox : LayoutBox :=
  {| width := 24; height := 24; x := 0; y := 0 |}.

Definition sampleNode (name type : string) (text : option string)
  (children : option (list SimplifiedNode)) : SimplifiedNode :=
  {| id := "1:2"; name := name; type := type; text := text; layout := None;
     opacity := None; borderRadius := None; children := children |}.

(** A node named [Icon 2xl], with or without a layout box. *)
Definition icon2xl (box : option LayoutBox) : SimplifiedNode :=
  {| id := "1:2"; name := "Icon 2xl"; type := "FRAME"; text := None;
     layout := box; opacity := None; borderRadius := None;
     children := None |}.

(** A dropdown whose only child is a rectangle without text. *)
Definition dropdownWithoutText : SimplifiedNode :=
  sampleNode "Dropdown" "FRAME" None
    (Some [sampleNode "Chevron" "RECTANGLE" None None]).

(** A dropdown whose second and third children have text. *)
Definition dropdownWithText : SimplifiedNode :=
  sampleNode "Dropdown" "FRAME" None
    (Some [sampleNode "Chevron" "RECTANGLE" None None;
           sampleNode "First" "TEXT" (Some "One") None;
           sampleNode "Second" "TEXT" (Some "Two") None]).

(** The two floating-point texts of the progress circle for the default
    stroke width 4, that is for the radius 46, at the progress values 0, 50
    and 100; nothing else is tabulated. *)
Definition circumferenceAt (radius : number) : string :=
  match radius with
  | Some 46%Z => "289.02652413026095"
  | _ => ""
  end.

Definition strokeDashoffsetAt (radius progress : number) : string :=
  match radius, progress with
  | Some 46%Z, Some 0%Z => "289.02652413026095"
  | Some 46%Z, Some 50%Z => "144.51326206513048"
  | Some 46%Z, Some 100%Z => "0"
  | _, _ => ""
  end.

(** The options of a generator that is constructed without options. *)
Definition noOptions : NcdsHtmlGenerationOptions :=
  {| includeCSS := None; includeComments := None;
     phpNamingConvention := None; generateNcdsImports := None;
     wrapInContainer := None |}.

Definition noGlobalVars : GlobalVars := {| styles := [] |}.

(** A design of one modal that holds two instances and a group. *)
Definition sampleDesign : SimplifiedDesign :=
  {| nodes :=
       [sampleNode "Confirm modal" "FRAME" None
          (Some [sampleNode "ok" "INSTANCE" None None;
                 sampleNode "cancel" "INSTANCE" None None;
                 sampleNode "footer" "GROUP" None None])];
     design_globalVars := noGlobalVars |}.

(** An array of objects, the shape of the item lists of the mapper. *)
Definition isObject (v : value) : Prop := exists fields, v = VObject fields.

(** The switch of the generator does not throw on the mapping, whatever the
    node and the markup of its children. *)
Definition rendersOk (circumferenceText : number -> string)
  (strokeDashoffsetText : number -> number -> string)
  (mapping : NcdsComponentMapping) : Prop :=
  forall (id className children : string) (node : SimplifiedNode),
    completes
      (componentHtml circumferenceText strokeDashoffsetText mapping id
         className (props mapping) children node).

(** The rule maps every node, without throwing, to a mapping that the
    switch renders. *)
Definition ruleRenders (circumferenceText : number -> string)
  (strokeDashoffsetText : number -> number -> string)
  (rule : ComponentMappingRule) : Prop :=
  forall node, exists mapping,
    mapper rule node = Ok mapping
    /\ rendersOk circumferenceText strokeDashoffsetText mapping.

(** *** Shapes of strings *)

(** Every character of [s] satisfies [P]. *)
Fixpoint allChars (P : ascii -> bool) (s : string) : bool :=
  match s with
  | EmptyString => true
  | String c rest => P c && allChars P rest
  end.

(** The characters of an identifier: a lower-case letter, a digit or an
    underscore. *)
Definition isIdChar (c : ascii) : bool :=
  isLowerAlnum c || (c =? "_")%char.

Definition firstChar (s : string) : option ascii :=
  match s with
  | EmptyString => None
  | String c _ => Some c
  end.

Fixpoint lastChar (s : string) : option ascii :=
  match s with
  | EmptyString => None
  | String c EmptyString => Some c
  | String _ rest => lastChar rest
  end.

(** No two underscores of [s] are adjacent. *)
Fixpoint noDoubleUnderscore (s : string) : bool :=
  match s with
  | EmptyString => true
  | String c rest =>
      match rest with
      | EmptyString => true
      | String c' _ =>
          negb ((c =? "_")%char && (c' =? "_")%char)
          && noDoubleUnderscore rest
      end
  end.

(** *** Usage accounting *)

(** The sum of the counts of a counter. *)
Fixpoint totalCount (counter : list (string * Z)) : Z :=
  match counter with
  | [] => 0
  | (_, n) :: rest => n + totalCount rest
  end.

(** The number of nodes of a tree that the mapper maps. *)
Fixpoint mappedNodes (node : SimplifiedNode) : nat :=
  (match mapToNcdsComponent node with
   | Ok (Some _) => 1
   | _ => 0
   end)
  + match children node with
    | Some cs => list_sum (map mappedNodes cs)
    | None => 0
    end.

(** The used kinds are the keys of the counter, in the same order and
    without duplicates; every key is a supported kind and every count is at
    least 1. *)
Definition usageInvariant (st : Usage) : Prop :=
  map fst (componentCounter st) = usedComponents st
  /\ NoDup (usedComponents st)
  /\ Forall (fun entry => In (fst entry) supportedKinds
                          /\ (1 <= snd entry)%Z)
       (componentCounter st).

(** *** Pagination, tabs and options *)

(** The pages that the loop of [generatePaginationHtml] visits. *)
Definition paginationPages (props : list (string * value)) : list Z :=
  let currentPage := js_or (get "currentPage" props) (VNumber 1) in
  let totalPages := js_or (get "totalPages" props) (VNumber 10) in
  let start :=
    Math_max (Some 1%Z) (num_sub (ToNumber currentPage) (Some 2%Z)) in
  let end_ := Math_min (ToNumber totalPages) (num_add start (Some 4%Z)) in
  pageRange start end_.

(** The template literal of [generatePaginationHtml], given the values it
    interpolates and the pages of the loop. *)
Definition paginationMarkup (id : string)
  (currentPage totalPages breakPoint : value) (pages : list Z) : string :=
  let showJumpButtons := num_gt (ToNumber totalPages) (Some 5%Z) in
  let pages :=
    map (fun i =>
           let isActive :=
             if strictEqNumber currentPage (Some i) then " is-current"
             else "" in
           lines
             [""
             ; q "        <li class=~ncua-pagination__item~>"
             ; q "          <button class=~ncua-pagination__page-num"
               ++ isActive ++ q "~>" ++ Z_toString i ++ "</button>"
             ; "        </li>" ])
      pages in
  lines
    [""
    ; "<nav" ++ idAttr id ++ q " class=~ncua-pagination ncua-pagination--"
      ++ toStr breakPoint ++ q "~>"
    ; "  "
      ++ (if showJumpButtons
          then lines
                 [""
                 ; q "    <button class=~ncua-pagination__nav-btn ncua-pagination__nav-btn--first~ "
                   ++ (if strictEqNumber currentPage (Some 1%Z)
                       then "disabled" else "") ++ ">"
                 ; q "      <span class=~ncua-pagination__nav-btn-text~>처음</span>"
                 ; "    </button>"
                 ; q "    <button class=~ncua-pagination__nav-btn ncua-pagination__nav-btn--prev~ "
                   ++ (if strictEqNumber currentPage (Some 1%Z)
                       then "disabled" else "") ++ ">"
                 ; q "      <span class=~ncua-pagination__nav-btn-text~>이전</span>"
                 ; "    </button>" ]
          else "")
    ; q "  <ul class=~ncua-pagination__list~>"
    ; "    " ++ join "" pages
    ; "  </ul>"
    ; q "  <p class=~ncua-pagination__page-info~>"
    ; q "    <em class=~ncua-pagination__current-num~>" ++ toStr currentPage
      ++ "</em> / " ++ toStr totalPages
    ; "  </p>"
    ; "  "
      ++ (if showJumpButtons
          then lines
                 [""
                 ; q "    <button class=~ncua-pagination__nav-btn ncua-pagination__nav-btn--next~ "
                   ++ (if strictEq currentPage totalPages
                       then "disabled" else "") ++ ">"
                 ; q "      <span class=~ncua-pagination__nav-btn-text~>다음</span>"
                 ; "    </button>"
                 ; q "    <button class=~ncua-pagination__nav-btn ncua-pagination__nav-btn--last~ "
                   ++ (if strictEq currentPage totalPages
                       then "disabled" else "") ++ ">"
                 ; q "      <span class=~ncua-pagination__nav-btn-text~>마지막</span>"
                 ; "    </button>" ]
          else "")
    ; "</nav>" ].

(** The tabs that [generateTabHtml] renders when the props give none. *)
Definition defaultTabs : value :=
  VArray [VObject [("label", VString "탭 1"); ("isActive", VBool true)];
          VObject [("label", VString "탭 2"); ("isActive", VBool false)]].

(** The option that the loop of [generateSelectHtml] appends for the child
    at the 0-based position [index] among all the children: nothing for a
    child without text. *)
Definition selectOption (index : nat) (child : SimplifiedNode) : string :=
  if textBearing child
  then q "<option value=~" ++ Z_toString (Z.of_nat index + 1) ++ q "~>"
       ++ toStr (ofText (text child)) ++ "</option>"
  else "".

(** The kinds whose templates take no markup of children. *)
Definition leafKinds : list string :=
  ["InputBase"; "Checkbox"; "Radio"; "Select"; "Badge"; "HorizontalTab";
   "VerticalTab"; "Pagination"; "ProgressBar"; "ProgressCircle";
   "Notification"; "Spinner"; "Tag"; "Slider"; "Toggle"; "BreadCrumb";
   "Divider"; "FeaturedIcon"].

(** A checkbox that holds an instance. *)
Definition checkboxWithInstance : SimplifiedNode :=
  sampleNode "Accept checkbox" "FRAME" None
    (Some [sampleNode "ok" "INSTANCE" None None]).

(** The mapping of the Checkbox rule for that node. *)
Definition checkboxMapping : NcdsComponentMapping :=
  {| component := "Checkbox";
     props := [("label", VString "Accept checkbox");
               ("checked", VBool false);
               ("disabled", VBool false)];
     htmlTag := "label";
     className := "ncua-checkbox" |}.

(** * Properties *)

(** ** Substrings *)

Lemma prefix_includes (s sub : string) :
  prefix sub s = true -> includes s sub = true.
Proof.
  destruct s as [|c rest]; simpl; intros H.
  - exact H.
  - rewrite H. reflexivity.
Qed.

Lemma prefix_tail (c x : ascii) (sub rest : string) :
  prefix (String c sub) (String x rest) = true -> prefix sub rest = true.
Proof.
  simpl. destruct (ascii_dec c x); [trivial | discriminate].
Qed.

(** A string that includes [c :: sub] includes [sub]. *)
Lemma includes_tail (s : string) (c : ascii) (sub : string) :
  includes s (String c sub) = true -> includes s sub = true.
Proof.
  induction s as [|x rest IH].
  - simpl. discriminate.
  - cbn [includes]. intros H.
    apply orb_true_iff in H. destruct H as [H | H].
    + apply prefix_tail in H. apply prefix_includes in H.
      rewrite H. apply orb_true_r.
    + rewrite (IH H). apply orb_true_r.
Qed.

(** ** Size inference *)

Lemma inferSize_no_layout (node : SimplifiedNode) :
  layout node = None -> inferSize node = "md".
Proof.
  intros H. unfold inferSize. rewrite H. reflexivity.
Qed.

Lemma inferSize_no_token (node : SimplifiedNode) :
  (forall token, In token sizeTokens ->
     includes (toLowerCase (name node)) token = false) ->
  inferSize node = "md".
Proof.
  intros H. unfold inferSize.
  destruct (negb (isSome (layout node))); [reflexivity|].
  cbv zeta.
  repeat rewrite H by (simpl; tauto).
  reflexivity.
Qed.

Lemma inferSize_names (node : SimplifiedNode) :
  In (inferSize node) sizeNames.
Proof.
  unfold inferSize, sizeNames.
  repeat match goal with
         | |- context [if ?b then _ else _] => destruct b
         end; simpl; tauto.
Qed.

(** C1, as amended.  Size inference always answers with one of the seven
    size names; it answers "md" for every node that has no layout box,
    whatever its name, and for every node whose lower-cased name contains
    none of the size tokens. *)
Theorem inferSize_total_default (node : SimplifiedNode) :
  In (inferSize node) sizeNames
  /\ (layout node = None -> inferSize node = "md")
  /\ ((forall token, In token sizeTokens ->
         includes (toLowerCase (name node)) token = false) ->
      inferSize node = "md").
Proof.
  split; [apply inferSize_names|].
  split; [apply inferSize_no_layout | apply inferSize_no_token].
Qed.

Lemma inferSize_total_default_witness :
  layout (sampleNode "Avatar" "FRAME" None None) = None
  /\ (forall token, In token sizeTokens ->
        includes (toLowerCase (name (sampleNode "Avatar" "FRAME" None None)))
          token = false)
  /\ inferSize (sampleNode "Avatar" "FRAME" None None) = "md".
Proof.
  split; [reflexivity|].
  assert (Htokens : forall token, In token sizeTokens ->
            includes
              (toLowerCase (name (sampleNode "Avatar" "FRAME" None None)))
              token = false).
  { intros token Hin. simpl in Hin.
    repeat (destruct Hin as [<- | Hin]; [reflexivity|]).
    destruct Hin. }
  split; [exact Htokens|].
  apply (inferSize_total_default (sampleNode "Avatar" "FRAME" None None)).
  exact Htokens.
Defined.

(** C1, as stated, fails: a node named "Icon 2xl" that has no layout box is
    given "md". *)
Lemma inferSize_2xl_counterexample :
  ~ (forall node : SimplifiedNode,
       includes (toLowerCase (name node)) "2xl" = true ->
       inferSize node = "2xl").
Proof.
  intros H. specialize (H (icon2xl None) eq_refl). discriminate H.
Qed.

(** With a layout box the same name is given "xl": the test for "xl" comes
    before the test for "2xl". *)
Lemma inferSize_2xl_with_layout :
  inferSize (icon2xl (Some sampleBox)) = "xl".
Proof. reflexivity. Qed.

(** No name is given "2xl": a name with "2xl" has "xl", and a name with
    "xxlarge" has "large", both tested earlier. *)
Lemma inferSize_never_2xl (node : SimplifiedNode) :
  inferSize node <> "2xl".
Proof.
  unfold inferSize.
  destruct (negb (isSome (layout node))); [discriminate|].
  cbv zeta.
  set (lname := toLowerCase (name node)).
  destruct (includes lname "xxs" || includes lname "tiny");
    [discriminate|].
  destruct (includes lname "xs" || includes lname "small");
    [discriminate|].
  destruct (includes lname "sm"); [discriminate|].
  destruct (includes lname "lg" || includes lname "large") eqn:Hlg;
    [discriminate|].
  destruct (includes lname "xl" || includes lname "xlarge") eqn:Hxl;
    [discriminate|].
  destruct (includes lname "2xl" || includes lname "xxlarge") eqn:H2xl;
    [|discriminate].
  exfalso.
  apply orb_false_iff in Hlg. destruct Hlg as [_ Hlarge].
  apply orb_false_iff in Hxl. destruct Hxl as [Hxl _].
  apply orb_true_iff in H2xl. destruct H2xl as [H | H].
  - apply includes_tail in H. congruence.
  - apply includes_tail in H. apply includes_tail in H. congruence.
Qed.

(** ** Classification *)

Lemma firstMatch_cons (rule : ComponentMappingRule)
  (rest : list ComponentMappingRule) (node : SimplifiedNode) :
  firstMatch (rule :: rest) node =
  if condition rule node
  then mapping <- mapper rule node ;; Ok (Some mapping)
  else firstMatch rest node.
Proof. reflexivity. Qed.

(** Moves to the next rule of the table in the hypothesis [H], leaving the
    case in which the rule at hand matched. *)
Ltac next_rule_as H Hcond :=
  rewrite firstMatch_cons in H;
  match type of H with
  | context [if condition ?rule ?node then _ else _] =>
      destruct (condition rule node) eqn:Hcond
  end.

Ltac next_rule H := let Hcond := fresh "Hcond" in next_rule_as H Hcond.

(** Closes the case in which a rule of another kind matched. *)
Ltac other_kind H :=
  match type of H with
  | context [mapper ?rule _] => unfold rule in H
  end;
  cbn [mapper] in H; unfold bind in H;
  repeat match type of H with
         | context [match ?r with Ok _ => _ | TypeError _ => _ end] =>
             lazymatch r with
             | match _ with Ok _ => _ | TypeError _ => _ end => fail
             | _ => destruct r; try discriminate H
             end
         end;
  injection H as <-; cbn [component]; discriminate.

(** C2.  A node whose kind is INSTANCE is mapped to a Button, whatever its
    name. *)
Theorem instance_is_button (node : SimplifiedNode) :
  type node = "INSTANCE" ->
  exists mapping,
    mapToNcdsComponent node = Ok (Some mapping)
    /\ component mapping = "Button".
Proof.
  intros Htype.
  unfold mapToNcdsComponent, NCDS_COMPONENT_RULES.
  rewrite firstMatch_cons.
  replace (condition buttonRule node) with true.
  - eexists. split; reflexivity.
  - unfold buttonRule. cbn [condition]. rewrite Htype. reflexivity.
Qed.

Lemma instance_is_button_witness :
  type (sampleNode "Table of contents" "INSTANCE" None None) = "INSTANCE"
  /\ exists mapping,
       mapToNcdsComponent (sampleNode "Table of contents" "INSTANCE" None None)
       = Ok (Some mapping)
       /\ component mapping = "Button".
Proof.
  split; [reflexivity|].
  apply (instance_is_button
           (sampleNode "Table of contents" "INSTANCE" None None)).
  reflexivity.
Defined.

Lemma tag_implies_badge (node : SimplifiedNode) :
  condition tagRule node = true -> condition badgeRule node = true.
Proof.
  unfold tagRule, badgeRule. cbn [condition]. intros H.
  apply andb_true_iff in H. destruct H as [Htype Hname].
  apply andb_true_iff in Hname. destruct Hname as [Htag _].
  rewrite Htype, Htag. rewrite orb_true_r. reflexivity.
Qed.

(** C3.  Every node that satisfies the condition of the Tag rule satisfies
    the condition of the Badge rule, which comes earlier; so no node is
    mapped to a Tag. *)
Theorem tag_is_never_returned :
  (forall node, condition tagRule node = true ->
                condition badgeRule node = true)
  /\ (forall node mapping,
        mapToNcdsComponent node = Ok (Some mapping) ->
        component mapping <> "Tag").
Proof.
  split; [exact tag_implies_badge|].
  intros node mapping H.
  unfold mapToNcdsComponent, NCDS_COMPONENT_RULES in H.
  do 5 (next_rule H; [other_kind H|]).
  next_rule_as H Hbadge; [other_kind H|].
  do 8 (next_rule H; [other_kind H|]).
  next_rule_as H Htag.
  { apply tag_implies_badge in Htag. congruence. }
  do 8 (next_rule H; [other_kind H|]).
  discriminate H.
Qed.

Lemma tag_is_never_returned_witness :
  condition tagRule (sampleNode "Price tag" "TEXT" None None) = true
  /\ condition badgeRule (sampleNode "Price tag" "TEXT" None None) = true
  /\ (exists mapping,
        mapToNcdsComponent (sampleNode "Price tag" "TEXT" None None)
        = Ok (Some mapping)
        /\ component mapping = "Badge"
        /\ component mapping <> "Tag").
Proof.
  split; [reflexivity|].
  split.
  - apply (proj1 tag_is_never_returned). reflexivity.
  - eexists. split; [reflexivity|]. split; [reflexivity|].
    apply (proj2 tag_is_never_returned
             (sampleNode "Price tag" "TEXT" None None)).
    reflexivity.
Defined.

(** C7.  On a node whose lower-cased name contains "tab" and "table" the
    condition of the Tab rule does not hold, and the node is not mapped to
    a HorizontalTab, which only that rule yields. *)
Theorem table_is_not_tab (node : SimplifiedNode) :
  includes (toLowerCase (name node)) "tab" = true ->
  includes (toLowerCase (name node)) "table" = true ->
  condition tabRule node = false
  /\ (forall mapping,
        mapToNcdsComponent node = Ok (Some mapping) ->
        component mapping <> "HorizontalTab").
Proof.
  intros Htab Htable.
  assert (Hrule : condition tabRule node = false).
  { unfold tabRule. cbn [condition]. rewrite Htab, Htable.
    apply andb_false_r. }
  split; [exact Hrule|].
  intros mapping H.
  unfold mapToNcdsComponent, NCDS_COMPONENT_RULES in H.
  do 7 (next_rule H; [other_kind H|]).
  next_rule_as H Htabrule; [congruence|].
  do 15 (next_rule H; [other_kind H|]).
  discriminate H.
Qed.

Lemma table_is_not_tab_witness :
  includes (toLowerCase (name (sampleNode "Data Table" "FRAME" None None)))
    "tab" = true
  /\ includes (toLowerCase (name (sampleNode "Data Table" "FRAME" None None)))
       "table" = true
  /\ condition tabRule (sampleNode "Data Table" "FRAME" None None) = false.
Proof.
  split; [reflexivity|]. split; [reflexivity|].
  apply (table_is_not_tab (sampleNode "Data Table" "FRAME" None None));
    reflexivity.
Defined.

(** C10.  A FRAME whose lower-cased name contains "text" and not "label",
    and which the Button rule does not match, is mapped to an InputBase. *)
Theorem text_frame_is_input (node : SimplifiedNode) :
  type node = "FRAME" ->
  includes (toLowerCase (name node)) "text" = true ->
  includes (toLowerCase (name node)) "label" = false ->
  includes (toLowerCase (name node)) "button" = false ->
  includes (toLowerCase (name node)) "btn" = false ->
  includes (toLowerCase (name node)) "click" = false ->
  includes (toLowerCase (name node)) "submit" = false ->
  condition buttonRule node = false
  /\ exists mapping,
       mapToNcdsComponent node = Ok (Some mapping)
       /\ component mapping = "InputBase".
Proof.
  intros Htype Htext Hlabel Hbutton Hbtn Hclick Hsubmit.
  assert (Hrule : condition buttonRule node = false).
  { unfold buttonRule. cbn [condition].
    rewrite Htype, Hbutton, Hbtn, Hclick, Hsubmit. reflexivity. }
  split; [exact Hrule|].
  unfold mapToNcdsComponent, NCDS_COMPONENT_RULES.
  rewrite firstMatch_cons, Hrule, firstMatch_cons.
  replace (condition inputRule node) with true.
  - eexists. split; reflexivity.
  - unfold inputRule. cbn [condition].
    rewrite Htype, Htext, Hlabel.
    rewrite !orb_true_r. reflexivity.
Qed.

Lemma text_frame_is_input_witness :
  exists mapping,
    mapToNcdsComponent (sampleNode "Body Text" "FRAME" None None)
    = Ok (Some mapping)
    /\ component mapping = "InputBase".
Proof.
  apply (text_frame_is_input (sampleNode "Body Text" "FRAME" None None));
    reflexivity.
Defined.

(** ** The validator *)

(** C6.  The validator answers true exactly for the mappings whose kind is
    one of the supported kinds, and false for every other kind; it is a
    function of the mapping alone. *)
Theorem validateNcdsMapping_spec (mapping : NcdsComponentMapping) :
  (validateNcdsMapping mapping = true <->
   In (component mapping) supportedKinds)
  /\ (validateNcdsMapping mapping = false <->
      ~ In (component mapping) supportedKinds).
Proof.
  assert (Hiff : validateNcdsMapping mapping = true <->
                 In (component mapping) supportedKinds).
  { unfold validateNcdsMapping. rewrite existsb_exists. split.
    - intros [kind [Hin Heq]]. apply String.eqb_eq in Heq. subst. exact Hin.
    - intros Hin. exists (component mapping). split; [exact Hin|].
      apply String.eqb_refl. }
  split; [exact Hiff|].
  rewrite <- Hiff. destruct (validateNcdsMapping mapping); split;
    congruence.
Qed.

(** ** Dropdown items *)

Lemma mapi_ext_in {A B : Type} (f g : nat -> A -> B) (items : list A) :
  (forall index item, In item items -> f index item = g index item) ->
  forall index, mapi f index items = mapi g index items.
Proof.
  induction items as [|item rest IH]; intros Hext index.
  - reflexivity.
  - cbn [mapi]. rewrite Hext by (left; reflexivity).
    rewrite IH; [reflexivity|].
    intros k y Hin. apply Hext. right. exact Hin.
Qed.

Lemma extractDropdownItems_children (node : SimplifiedNode)
  (cs : list SimplifiedNode) :
  children node = Some cs ->
  extractDropdownItems node
  = Ok (VArray (mapi dropdownItem 0 (filter textBearing cs))).
Proof.
  intros Hcs. unfold extractDropdownItems. rewrite Hcs.
  cbn [isSome negb deref bind].
  do 2 f_equal.
  apply mapi_ext_in.
  intros index child Hin.
  apply filter_In in Hin. destruct Hin as [_ Htext].
  unfold dropdownItem, js_or.
  unfold textBearing in Htext. rewrite Htext.
  rewrite Nat2Z.inj_add. reflexivity.
Qed.

(** C4, as amended.  The default list of two items is returned when the
    node has no children field.  Otherwise every text-bearing child becomes
    a pair of its text, as label, and of its 1-based position among the
    text-bearing children, as a string, for value; children none of which
    is text-bearing give the empty list. *)
Theorem extractDropdownItems_spec (node : SimplifiedNode) :
  (children node = None ->
   extractDropdownItems node = Ok defaultDropdownItems)
  /\ (forall cs, children node = Some cs ->
        extractDropdownItems node
        = Ok (VArray (mapi dropdownItem 0 (filter textBearing cs))))
  /\ (forall cs, children node = Some cs ->
        (forall child, In child cs -> textBearing child = false) ->
        extractDropdownItems node = Ok (VArray [])).
Proof.
  split.
  { intros Hnone. unfold extractDropdownItems. rewrite Hnone. reflexivity. }
  split.
  { intros cs. apply extractDropdownItems_children. }
  intros cs Hcs Hnone.
  rewrite (extractDropdownItems_children node Hcs).
  replace (filter textBearing cs) with (@nil SimplifiedNode);
    [reflexivity|].
  symmetry. clear Hcs. induction cs as [|child rest IH]; [reflexivity|].
  cbn [filter]. rewrite Hnone by (left; reflexivity).
  apply IH. intros c Hin. apply Hnone. right. exact Hin.
Qed.

Lemma extractDropdownItems_spec_witness :
  children dropdownWithText
  = Some [sampleNode "Chevron" "RECTANGLE" None None;
          sampleNode "First" "TEXT" (Some "One") None;
          sampleNode "Second" "TEXT" (Some "Two") None]
  /\ extractDropdownItems dropdownWithText
     = Ok (VArray
             [VObject [("label", VString "One"); ("value", VString "1")];
              VObject [("label", VString "Two"); ("value", VString "2")]]).
Proof.
  split; [reflexivity|].
  exact (proj1 (proj2 (extractDropdownItems_spec dropdownWithText))
           _ eq_refl).
Defined.

(** C4, as stated, fails: a node whose only child has no text is given the
    empty list, not the default list. *)
Lemma extractDropdownItems_counterexample :
  ~ (forall node : SimplifiedNode,
       (forall cs, children node = Some cs ->
                   forall child, In child cs -> textBearing child = false) ->
       extractDropdownItems node = Ok defaultDropdownItems).
Proof.
  intros H. specialize (H dropdownWithoutText).
  assert (Hempty : extractDropdownItems dropdownWithoutText = Ok (VArray []))
    by reflexivity.
  rewrite Hempty in H.
  assert (Heq : Ok (VArray []) = Ok defaultDropdownItems).
  { apply H. intros cs Hcs child Hin.
    injection Hcs as <-. simpl in Hin.
    destruct Hin as [<- | []]. reflexivity. }
  discriminate Heq.
Qed.

(** ** Progress values *)

Lemma clampProgress_number (props : list (string * value)) (z : Z) :
  get "progress" props = VNumber z ->
  clampProgress props = Some (Z.min (Z.max z 0) 100).
Proof.
  intros H. unfold clampProgress, js_or. rewrite H. cbn [truthy].
  destruct (z =? 0)%Z eqn:Hz; cbn [negb ToNumber Math_max Math_min lift2].
  - apply Z.eqb_eq in Hz. subst. reflexivity.
  - reflexivity.
Qed.

Lemma clampProgress_undefined (props : list (string * value)) :
  get "progress" props = VUndefined ->
  clampProgress props = Some 0%Z.
Proof.
  intros H. unfold clampProgress, js_or. rewrite H. reflexivity.
Qed.

(** The clamp at the progress values 150 and -20. *)
Lemma clampProgress_150 :
  clampProgress [("progress", VNumber 150)] = Some 100%Z.
Proof. reflexivity. Qed.

Lemma clampProgress_minus_20 :
  clampProgress [("progress", VNumber (-20))] = Some 0%Z.
Proof. reflexivity. Qed.

(** C8, as amended.  For every props whose progress is absent or a number,
    150 and -20 among them, the progress bar and the progress circle embed
    one and the same progress value, which lies in [0, 100]: it is the fill
    width, the [aria-valuenow] and the label of the bar, and the percent
    text and the argument of the stroke-dashoffset of the circle. *)
Theorem progress_is_clamped
  (circumferenceText : number -> string)
  (strokeDashoffsetText : number -> number -> string)
  (id className : string) (props : list (string * value))
  (node : SimplifiedNode) :
  get "progress" props = VUndefined
  \/ (exists z, get "progress" props = VNumber z) ->
  exists p : Z,
    (0 <= p <= 100)%Z
    /\ (forall z, get "progress" props = VNumber z ->
                  p = Z.min (Z.max z 0) 100)
    /\ generateProgressBarHtml id className props node
       = progressBarMarkup id
           (js_or (get "label" props) (VString "none"))
           (js_or (get "showValue" props) (VBool false))
           (Some p)
    /\ generateProgressCircleHtml circumferenceText strokeDashoffsetText
         id className props node
       = progressCircleMarkup circumferenceText strokeDashoffsetText id
           (js_or (get "size" props) (VString "md"))
           (js_or (get "strokeWidth" props) (VNumber 4))
           (num_sub (Some 50%Z)
              (ToNumber (js_or (get "strokeWidth" props) (VNumber 4))))
           (Some p).
Proof.
  intros [Hnone | [z Hz]].
  - exists 0%Z. split; [lia|]. split.
    + intros z Hz. congruence.
    + unfold generateProgressBarHtml, generateProgressCircleHtml.
      rewrite (clampProgress_undefined props Hnone). split; reflexivity.
  - exists (Z.min (Z.max z 0) 100). split; [lia|]. split.
    + intros z' Hz'. congruence.
    + unfold generateProgressBarHtml, generateProgressCircleHtml.
      rewrite (clampProgress_number props Hz). split; reflexivity.
Qed.

Lemma progress_is_clamped_witness :
  get "progress" [("progress", VNumber 150); ("showValue", VBool true)]
  = VNumber 150
  /\ exists p : Z,
       (0 <= p <= 100)%Z
       /\ p = 100%Z
       /\ generateProgressBarHtml "bar" "ncua-progress-bar"
            [("progress", VNumber 150); ("showValue", VBool true)]
            (sampleNode "Upload progress bar" "FRAME" None None)
          = progressBarMarkup "bar" (VString "none") (VBool true) (Some p).
Proof.
  split; [reflexivity|].
  destruct (progress_is_clamped circumferenceAt strokeDashoffsetAt
              "bar" "ncua-progress-bar"
              [("progress", VNumber 150); ("showValue", VBool true)]
              (sampleNode "Upload progress bar" "FRAME" None None)
              (or_intror (ex_intro _ 150%Z eq_refl)))
    as [p [Hrange [Hvalue [Hbar _]]]].
  exists p. split; [exact Hrange|]. split.
  - exact (Hvalue 150%Z eq_refl).
  - exact Hbar.
Defined.

(** C8, as stated, fails: a progress that is not a number is coerced, and
    the string "75%" is coerced to NaN, which the clamp lets through. *)
Lemma progress_is_clamped_counterexample :
  ~ (forall props : list (string * value),
       exists p : Z, (0 <= p <= 100)%Z /\ clampProgress props = Some p).
Proof.
  intros H. destruct (H [("progress", VString "75%")]) as [p [_ Hp]].
  discriminate Hp.
Qed.

(** The markup of the progress bar for that progress. *)
Example progress_bar_of_percent_string :
  generateProgressBarHtml "bar" "ncua-progress-bar"
    [("progress", VString "75%")]
    (sampleNode "Upload progress bar" "FRAME" None None)
  = lines
      [""
      ; q "<div id=~bar~ class=~ncua-progress-bar ncua-progress-bar-none~>"
      ; q "  <div class=~ncua-progress-bar__content~>"
      ; q "    <div class=~ncua-progress-bar__bar~>"
      ; q "      <div class=~ncua-progress-bar__fill~ style=~width: NaN%~ aria-valuenow=~NaN~ aria-valuemin=~0~ aria-valuemax=~100~></div>"
      ; "    </div>"
      ; "    "
      ; "  </div>"
      ; "  "
      ; "</div>" ].
Proof. vm_compute. reflexivity. Qed.

(** ** The pipeline does not throw *)

Lemma completes_Ok {A : Type} (a : A) : completes (Ok a).
Proof. exists a. reflexivity. Qed.

Lemma completes_bind {A B : Type} (r : result A) (k : A -> result B) :
  completes r -> (forall a, completes (k a)) -> completes (bind r k).
Proof.
  intros [a ->] Hk. cbn [bind]. apply Hk.
Qed.

(** Induction on a node, with the property for all of its children. *)
Lemma SimplifiedNode_children_ind (P : SimplifiedNode -> Prop) :
  (forall node,
     (forall cs, children node = Some cs -> Forall P cs) -> P node) ->
  forall node, P node.
Proof.
  intros step. fix IH 1. intros node. apply step.
  destruct node as [i n t tx l o b cs]. cbn [children].
  intros cs' Hcs. destruct cs as [cs|]; [|discriminate Hcs].
  injection Hcs as <-.
  induction cs as [|c rest IHrest]; constructor.
  - apply IH.
  - exact IHrest.
Qed.

(** *** The helpers of the mapper *)

Lemma findChildText_completes (node : SimplifiedNode) (type : string) :
  completes (findChildText node type).
Proof.
  unfold findChildText. destruct (children node) as [cs|];
    cbn [isSome negb deref bind]; apply completes_Ok.
Qed.

Lemma Forall_mapi {A B : Type} (P : B -> Prop) (f : nat -> A -> B)
  (items : list A) :
  (forall index item, P (f index item)) ->
  forall index, Forall P (mapi f index items).
Proof.
  intros Hf. induction items as [|item rest IH]; intros index;
    cbn [mapi]; constructor; auto.
Qed.

Lemma extractTabItems_objects (node : SimplifiedNode) :
  exists items,
    extractTabItems node = Ok (VArray items) /\ Forall isObject items.
Proof.
  unfold extractTabItems. destruct (children node) as [cs|];
    cbn [isSome negb deref bind]; eexists; (split; [reflexivity|]).
  - apply Forall_forall. intros item Hin.
    apply in_map_iff in Hin. destruct Hin as [child [<- _]].
    eexists. reflexivity.
  - constructor.
Qed.

Lemma extractDropdownItems_objects (node : SimplifiedNode) :
  exists items,
    extractDropdownItems node = Ok (VArray items) /\ Forall isObject items.
Proof.
  unfold extractDropdownItems. destruct (children node) as [cs|];
    cbn [isSome negb deref bind]; eexists; (split; [reflexivity|]).
  - apply Forall_mapi. intros index child. eexists. reflexivity.
  - repeat constructor; eexists; reflexivity.
Qed.

(** *** The templates that can throw *)

Lemma mapM_completes {A B : Type} (f : nat -> A -> result B)
  (items : list A) :
  (forall index item, In item items -> completes (f index item)) ->
  forall index, completes (mapM f index items).
Proof.
  induction items as [|item rest IH]; intros Hf index; cbn [mapM].
  - apply completes_Ok.
  - apply completes_bind; [apply Hf; left; reflexivity|].
    intros b. apply completes_bind.
    + apply IH. intros k y Hin. apply Hf. right. exact Hin.
    + intros bs. apply completes_Ok.
Qed.

Lemma array_map_objects (f : nat -> value -> result string)
  (items : list value) :
  Forall isObject items ->
  (forall index fields, completes (f index (VObject fields))) ->
  completes (array_map (VArray items) f).
Proof.
  intros Hobj Hf. cbn [array_map]. apply mapM_completes.
  intros index item Hin.
  rewrite Forall_forall in Hobj. destruct (Hobj item Hin) as [fields ->].
  apply Hf.
Qed.

Lemma generateSelectHtml_completes (id className : string)
  (props : list (string * value)) (node : SimplifiedNode) :
  completes (generateSelectHtml id className props node).
Proof.
  unfold generateSelectHtml. cbv zeta. apply completes_bind.
  - destruct (children node) as [cs|]; cbn [isSome deref bind];
      apply completes_Ok.
  - intros options. apply completes_Ok.
Qed.

Lemma generateTabHtml_completes (id className : string)
  (props : list (string * value)) (node : SimplifiedNode)
  (items : list value) :
  get "tabs" props = VArray items -> Forall isObject items ->
  completes (generateTabHtml id className props node).
Proof.
  intros Hget Hobj. unfold generateTabHtml. rewrite Hget.
  cbn [js_or truthy]. cbv zeta. apply completes_bind.
  - apply array_map_objects; [exact Hobj|].
    intros index fields. cbn [member bind]. apply completes_Ok.
  - intros tabButtons. apply completes_Ok.
Qed.

Lemma generateVerticalTabHtml_completes (id className : string)
  (props : list (string * value)) (node : SimplifiedNode)
  (items : list value) :
  get "tabs" props = VArray items -> Forall isObject items ->
  completes (generateVerticalTabHtml id className props node).
Proof.
  intros Hget Hobj. unfold generateVerticalTabHtml. rewrite Hget.
  cbn [js_or truthy]. cbv zeta. apply completes_bind.
  - apply array_map_objects; [exact Hobj|].
    intros index fields. cbn [member bind]. apply completes_Ok.
  - intros tabButtons. apply completes_Ok.
Qed.

Lemma generateBreadcrumbHtml_completes (id className : string)
  (props : list (string * value)) (node : SimplifiedNode)
  (items : list value) :
  get "items" props = VArray items -> Forall isObject items ->
  completes (generateBreadcrumbHtml id className props node).
Proof.
  intros Hget Hobj. unfold generateBreadcrumbHtml. rewrite Hget.
  cbn [js_or truthy]. cbv zeta. apply completes_bind.
  - apply array_map_objects; [exact Hobj|].
    intros index fields. apply completes_bind.
    + destruct (Z.of_nat index =? Z.of_nat (array_length (VArray items)) - 1)%Z;
        cbn [member bind]; apply completes_Ok.
    + intros inner. apply completes_Ok.
  - intros breadcrumbItems. apply completes_Ok.
Qed.

Lemma generateDropdownHtml_completes (id className : string)
  (props : list (string * value)) (children : string)
  (node : SimplifiedNode) (items : list value) :
  get "items" props = VArray items -> Forall isObject items ->
  completes (generateDropdownHtml id className props children node).
Proof.
  intros Hget Hobj. unfold generateDropdownHtml. rewrite Hget.
  cbn [js_or truthy]. cbv zeta. apply completes_bind.
  - apply array_map_objects; [exact Hobj|].
    intros index fields. cbn [member bind]. apply completes_Ok.
  - intros dropdownItems. apply completes_Ok.
Qed.

Section Totality.

Variable circumferenceText : number -> string.
Variable strokeDashoffsetText : number -> number -> string.

(** Selects the case of the switch for a mapping whose kind is a literal. *)
Ltac dispatch :=
  unfold rendersOk; intros;
  lazy beta iota zeta
    delta [componentHtml component props String.eqb Ascii.eqb Bool.eqb].

Ltac pure_rule :=
  intros node; eexists; split; [reflexivity|];
  dispatch; apply completes_Ok.

Ltac with_child_text node key :=
  let v := fresh "v" in
  let Hv := fresh "Hv" in
  destruct (findChildText_completes node key) as [v Hv];
  cbn [mapper]; rewrite Hv; cbn [bind].

(** *** Every rule maps every node to a mapping that renders *)

Lemma rules_render :
  Forall (ruleRenders circumferenceText strokeDashoffsetText)
    NCDS_COMPONENT_RULES.
Proof.
  unfold NCDS_COMPONENT_RULES, ruleRenders.
  repeat apply Forall_cons; try apply Forall_nil.
  - unfold buttonRule. pure_rule.
  - unfold inputRule. pure_rule.
  - unfold checkboxRule. pure_rule.
  - unfold radioRule. pure_rule.
  - unfold selectRule. intros node. eexists. split; [reflexivity|].
    dispatch. apply generateSelectHtml_completes.
  - unfold badgeRule. pure_rule.
  - unfold modalRule. intros node. with_child_text node "title".
    eexists. split; [reflexivity|]. dispatch. apply completes_Ok.
  - unfold tabRule. intros node.
    destruct (extractTabItems_objects node) as [items [Hitems Hobj]].
    cbn [mapper]. rewrite Hitems. cbn [bind].
    eexists. split; [reflexivity|]. dispatch.
    apply generateTabHtml_completes with (items := items);
      [reflexivity | exact Hobj].
  - unfold paginationRule. pure_rule.
  - unfold progressBarRule. pure_rule.
  - unfold notificationRule. intros node.
    with_child_text node "title". with_child_text node "description".
    eexists. split; [reflexivity|]. dispatch. apply completes_Ok.
  - unfold verticalTabRule. intros node.
    destruct (extractTabItems_objects node) as [items [Hitems Hobj]].
    cbn [mapper]. rewrite Hitems. cbn [bind].
    eexists. split; [reflexivity|]. dispatch.
    apply generateVerticalTabHtml_completes with (items := items);
      [reflexivity | exact Hobj].
  - unfold progressCircleRule. pure_rule.
  - unfold spinnerRule. pure_rule.
  - unfold tagRule. pure_rule.
  - unfold toggleRule. pure_rule.
  - unfold tooltipRule. intros node. with_child_text node "title".
    eexists. split; [reflexivity|]. dispatch. apply completes_Ok.
  - unfold sliderRule. pure_rule.
  - unfold breadCrumbRule. intros node. eexists. split; [reflexivity|].
    dispatch.
    eapply generateBreadcrumbHtml_completes; [reflexivity|].
    repeat constructor; eexists; reflexivity.
  - unfold dividerRule. pure_rule.
  - unfold dropdownRule. intros node.
    destruct (extractDropdownItems_objects node) as [items [Hitems Hobj]].
    cbn [mapper]. rewrite Hitems. cbn [bind].
    eexists. split; [reflexivity|]. dispatch.
    apply generateDropdownHtml_completes with (items := items);
      [reflexivity | exact Hobj].
  - unfold emptyStateRule. intros node.
    with_child_text node "title". with_child_text node "description".
    eexists. split; [reflexivity|]. dispatch. apply completes_Ok.
  - unfold featuredIconRule. pure_rule.
Qed.

Lemma firstMatch_renders (rules : list ComponentMappingRule)
  (node : SimplifiedNode) :
  Forall (ruleRenders circumferenceText strokeDashoffsetText) rules ->
  exists found,
    firstMatch rules node = Ok found
    /\ (forall mapping, found = Some mapping -> rendersOk circumferenceText strokeDashoffsetText mapping).
Proof.
  induction 1 as [|rule rest Hrule _ IH].
  - exists None. split; [reflexivity|]. discriminate.
  - rewrite firstMatch_cons. destruct (condition rule node).
    + destruct (Hrule node) as [mapping [Hmap Hrenders]].
      rewrite Hmap. cbn [bind]. exists (Some mapping).
      split; [reflexivity|]. intros m Hm. injection Hm as <-.
      exact Hrenders.
    + exact IH.
Qed.

(** Classification does not throw, and what it returns renders. *)
Lemma mapToNcdsComponent_renders (node : SimplifiedNode) :
  exists found,
    mapToNcdsComponent node = Ok found
    /\ (forall mapping, found = Some mapping -> rendersOk circumferenceText strokeDashoffsetText mapping).
Proof.
  apply firstMatch_renders. apply rules_render.
Qed.

(** *** Rendering a tree *)

Variable options : NcdsHtmlGenerationOptions.

Lemma generateNodeHtml_unfold (node : SimplifiedNode) (st : Usage) :
  generateNodeHtml circumferenceText strokeDashoffsetText options node st
  = generateNodeHtmlBody circumferenceText strokeDashoffsetText options
      (generateNodeHtml circumferenceText strokeDashoffsetText options)
      node st.
Proof. destruct node; reflexivity. Qed.

Lemma mapNodes_completes
  (self : SimplifiedNode -> Usage -> result (string * Usage))
  (nodes : list SimplifiedNode) :
  Forall (fun node => forall st, completes (self node st)) nodes ->
  forall st, completes (mapNodes self nodes st).
Proof.
  induction 1 as [|node rest Hnode _ IH]; intros st; cbn [mapNodes].
  - apply completes_Ok.
  - apply completes_bind; [apply Hnode|]. intros r.
    apply completes_bind; [apply IH|]. intros rs. apply completes_Ok.
Qed.

Lemma generateNodesHtml_completes
  (self : SimplifiedNode -> Usage -> result (string * Usage))
  (nodes : list SimplifiedNode) :
  Forall (fun node => forall st, completes (self node st)) nodes ->
  forall st, completes (generateNodesHtml self nodes st).
Proof.
  intros Hnodes st. unfold generateNodesHtml. apply completes_bind.
  - apply mapNodes_completes. exact Hnodes.
  - intros rs. apply completes_Ok.
Qed.

Lemma generateChildren_completes
  (self : SimplifiedNode -> Usage -> result (string * Usage))
  (node : SimplifiedNode) :
  (forall cs, children node = Some cs ->
     Forall (fun child => forall st, completes (self child st)) cs) ->
  forall st, completes (generateChildren self node st).
Proof.
  intros Hcs st. unfold generateChildren.
  destruct (children node) as [cs|]; [|apply completes_Ok].
  destruct (length cs =? 0)%nat; [apply completes_Ok|].
  apply generateNodesHtml_completes. apply Hcs. reflexivity.
Qed.

Lemma generateRegularHtml_completes
  (self : SimplifiedNode -> Usage -> result (string * Usage))
  (node : SimplifiedNode) :
  (forall st, completes (generateChildren self node st)) ->
  forall st, completes (generateRegularHtml options self node st).
Proof.
  intros Hchildren st. unfold generateRegularHtml. cbv zeta.
  apply completes_bind; [apply Hchildren|].
  intros r. apply completes_Ok.
Qed.

Lemma generateNcdsComponentHtml_completes
  (self : SimplifiedNode -> Usage -> result (string * Usage))
  (mapping : NcdsComponentMapping) (node : SimplifiedNode) :
  rendersOk circumferenceText strokeDashoffsetText mapping ->
  (forall st, completes (generateChildren self node st)) ->
  forall st,
    completes
      (generateNcdsComponentHtml circumferenceText strokeDashoffsetText
         options self mapping node st).
Proof.
  intros Hrenders Hchildren st. unfold generateNcdsComponentHtml.
  cbv zeta. apply completes_bind; [apply Hchildren|].
  intros r. apply completes_bind; [apply Hrenders|].
  intros body. apply completes_Ok.
Qed.

(** Rendering a node returns, for every node and every usage so far. *)
Lemma generateNodeHtml_completes (node : SimplifiedNode) :
  forall st,
    completes
      (generateNodeHtml circumferenceText strokeDashoffsetText options
         node st).
Proof.
  induction node as [node IH] using SimplifiedNode_children_ind.
  intros st. rewrite generateNodeHtml_unfold. unfold generateNodeHtmlBody.
  destruct (mapToNcdsComponent_renders node) as [found [Hmap Hrenders]].
  rewrite Hmap. cbn [bind].
  assert (Hchildren :
            forall st',
              completes
                (generateChildren
                   (generateNodeHtml circumferenceText strokeDashoffsetText
                      options) node st'))
    by (apply generateChildren_completes; exact IH).
  destruct found as [mapping|].
  - destruct (validateNcdsMapping mapping).
    + apply generateNcdsComponentHtml_completes;
        [apply Hrenders; reflexivity | exact Hchildren].
    + apply generateRegularHtml_completes. exact Hchildren.
  - apply generateRegularHtml_completes. exact Hchildren.
Qed.

End Totality.

(** ** Generation *)

Lemma generateFromDesign_completes
  (circumferenceText : number -> string)
  (strokeDashoffsetText : number -> number -> string)
  (options : NcdsHtmlGenerationOptions) (design : SimplifiedDesign) :
  completes
    (generateNodesHtml
       (generateNodeHtml circumferenceText strokeDashoffsetText options)
       (nodes design) noUsage).
Proof.
  apply generateNodesHtml_completes. apply Forall_forall.
  intros node _. apply generateNodeHtml_completes.
Qed.

(** C5.  A call of [generateFromDesign] returns; a second call on the same
    generator returns the same result, markup and usage counts included,
    and so does a call on any other generator that has the same options:
    the used kinds and the counter are cleared when a call begins. *)
Theorem generateFromDesign_idempotent
  (circumferenceText : number -> string)
  (strokeDashoffsetText : number -> number -> string)
  (this : NcdsHtmlGenerator) (design : SimplifiedDesign) :
  exists generated this',
    generateFromDesign circumferenceText strokeDashoffsetText this design
    = Ok (generated, this')
    /\ generateFromDesign circumferenceText strokeDashoffsetText this' design
       = Ok (generated, this')
    /\ (forall other,
          this_options other = this_options this ->
          exists other',
            generateFromDesign circumferenceText strokeDashoffsetText other
              design
            = Ok (generated, other')).
Proof.
  destruct (generateFromDesign_completes circumferenceText
              strokeDashoffsetText (this_options this) design) as [r Hr].
  unfold generateFromDesign.
  cbn [clearUsage this_options usage globalVars].
  rewrite Hr. cbn [bind].
  eexists. eexists. split; [reflexivity|].
  cbn [this_options usage globalVars]. rewrite Hr. cbn [bind].
  split; [reflexivity|].
  intros other Hother. rewrite Hother, Hr. cbn [bind].
  eexists. reflexivity.
Qed.

Lemma generateFromDesign_idempotent_witness :
  exists generated first second,
    generateFromDesign circumferenceAt strokeDashoffsetAt
      (new_NcdsHtmlGenerator noGlobalVars noOptions) sampleDesign
    = Ok (generated, first)
    /\ generateFromDesign circumferenceAt strokeDashoffsetAt first
         sampleDesign
       = Ok (generated, first)
    /\ generateFromDesign circumferenceAt strokeDashoffsetAt
         (new_NcdsHtmlGenerator {| styles := [("fill", VString "#fff")] |}
            noOptions) sampleDesign
       = Ok (generated, second)
    /\ componentUsage generated = [("Modal", 1%Z); ("Button", 2%Z)].
Proof.
  destruct (generateFromDesign_idempotent circumferenceAt strokeDashoffsetAt
              (new_NcdsHtmlGenerator noGlobalVars noOptions) sampleDesign)
    as [generated [first [Hfirst [Hagain Hother]]]].
  destruct (Hother
              (new_NcdsHtmlGenerator {| styles := [("fill", VString "#fff")] |}
                 noOptions) eq_refl) as [second Hsecond].
  exists generated, first, second.
  split; [exact Hfirst|]. split; [exact Hagain|]. split; [exact Hsecond|].
  assert (Hrun :
            exists g,
              generateFromDesign circumferenceAt strokeDashoffsetAt
                (new_NcdsHtmlGenerator noGlobalVars noOptions) sampleDesign
              = Ok g /\ componentUsage (fst g)
                        = [("Modal", 1%Z); ("Button", 2%Z)]).
  { eexists. split; [vm_compute; reflexivity | reflexivity]. }
  destruct Hrun as [g [Hg Husage]].
  rewrite Hg in Hfirst. injection Hfirst as Heq. subst g. exact Husage.
Defined.

(** ** Sparse nodes *)

(** C9.  On a node all of whose optional fields are absent nothing throws:
    classification returns; the inferencers give their defaults ("md", no
    child text, no tab items, the default dropdown items); there are no
    inline styles and no markup of children; and the generic renderer and
    the rendering of the node return a value. *)
Theorem sparse_node_is_handled
  (circumferenceText : number -> string)
  (strokeDashoffsetText : number -> number -> string)
  (options : NcdsHtmlGenerationOptions) (node : SimplifiedNode)
  (st : Usage) :
  sparse node ->
  completes (mapToNcdsComponent node)
  /\ inferSize node = "md"
  /\ (forall type, findChildText node type = Ok VUndefined)
  /\ extractTabItems node = Ok (VArray [])
  /\ extractDropdownItems node = Ok defaultDropdownItems
  /\ generateInlineStyles node = ""
  /\ generateChildren
       (generateNodeHtml circumferenceText strokeDashoffsetText options)
       node st
     = Ok ("", st)
  /\ completes
       (generateRegularHtml options
          (generateNodeHtml circumferenceText strokeDashoffsetText options)
          node st)
  /\ completes
       (generateNodeHtml circumferenceText strokeDashoffsetText options
          node st).
Proof.
  intros [Htext [Hlayout [Hopacity [Hradius Hchildren]]]].
  split.
  { destruct (mapToNcdsComponent_renders circumferenceText
                strokeDashoffsetText node) as [found [Hfound _]].
    exists found. exact Hfound. }
  split; [apply inferSize_no_layout; exact Hlayout|].
  split.
  { intros type. unfold findChildText. rewrite Hchildren. reflexivity. }
  split; [unfold extractTabItems; rewrite Hchildren; reflexivity|].
  split; [unfold extractDropdownItems; rewrite Hchildren; reflexivity|].
  split.
  { unfold generateInlineStyles. rewrite Hopacity, Hradius. reflexivity. }
  split; [unfold generateChildren; rewrite Hchildren; reflexivity|].
  split.
  - apply generateRegularHtml_completes. intros st'.
    unfold generateChildren. rewrite Hchildren. apply completes_Ok.
  - apply generateNodeHtml_completes.
Qed.

Lemma sparse_node_is_handled_witness :
  sparse (sampleNode "Checkbox Disabled" "FRAME" None None)
  /\ completes
       (generateNodeHtml circumferenceAt strokeDashoffsetAt
          (this_options (new_NcdsHtmlGenerator noGlobalVars noOptions))
          (sampleNode "Checkbox Disabled" "FRAME" None None) noUsage).
Proof.
  assert (Hsparse : sparse (sampleNode "Checkbox Disabled" "FRAME" None None))
    by (repeat split; reflexivity).
  split; [exact Hsparse|].
  apply (@sparse_node_is_handled circumferenceAt strokeDashoffsetAt
           (this_options (new_NcdsHtmlGenerator noGlobalVars noOptions))
           (sampleNode "Checkbox Disabled" "FRAME" None None) noUsage
           Hsparse).
Defined.

(** ** The scenarios of the specification, evaluated *)

Example scenario_primary_button :
  generateNodeHtml circumferenceAt strokeDashoffsetAt
    (this_options (new_NcdsHtmlGenerator noGlobalVars noOptions))
    (sampleNode "Primary Button" "FRAME" (Some "Submit") None) noUsage
  = Ok (lines
          ["<!-- NCDS Button: Primary Button -->"
          ; q "<button id=~primary_button~ class=~ncua-btn ncua-btn--primary ncua-btn--md~ type=~button~><span class=~ncua-btn__label~>Submit</span></button>" ],
        {| usedComponents := ["Button"];
           componentCounter := [("Button", 1%Z)] |}).
Proof. vm_compute. reflexivity. Qed.

Example scenario_plain_text :
  generateNodeHtml circumferenceAt strokeDashoffsetAt
    (this_options (new_NcdsHtmlGenerator noGlobalVars noOptions))
    (sampleNode "Hello" "TEXT" (Some "Hello") None) noUsage
  = Ok (q "<span id=~hello~ class=~figma-text~>Hello</span>", noUsage).
Proof. vm_compute. reflexivity. Qed.

Example scenario_tab_group :
  mapToNcdsComponent
    (sampleNode "Tab Group" "FRAME" None
       (Some [sampleNode "Tab 1" "TEXT" (Some "One") None;
              sampleNode "Tab 2 Active" "TEXT" (Some "Two") None;
              sampleNode "Tab 3" "TEXT" (Some "Three") None]))
  = Ok (Some
          {| component := "HorizontalTab";
             props :=
               [("tabs",
                  VArray
                    [VObject [("label", VString "One");
                              ("isActive", VBool false)];
                     VObject [("label", VString "Two");
                              ("isActive", VBool true)];
                     VObject [("label", VString "Three");
                              ("isActive", VBool false)]])];
             htmlTag := "div";
             className := "ncua-tab" |}).
Proof. vm_compute. reflexivity. Qed.

Example scenario_select_before_dropdown :
  option_map component
    (match mapToNcdsComponent
             (sampleNode "Select dropdown" "FRAME" None None) with
     | Ok found => found
     | TypeError _ => None
     end)
  = Some "Select".
Proof. reflexivity. Qed.

Example toPhpNaming_example :
  toPhpNaming "__Primary  Button (2)!" = "primary_button_2".
Proof. reflexivity. Qed.

(** * Further properties of the mapper *)

(** Closes the case in which the rule at hand matched, when the goal holds
    of the mapping of that rule by evaluation. *)
Ltac this_rule H :=
  match type of H with
  | context [mapper ?rule _] => unfold rule in H
  end;
  cbn [mapper] in H; unfold bind in H;
  repeat match type of H with
         | context [match ?r with Ok _ => _ | TypeError _ => _ end] =>
             lazymatch r with
             | match _ with Ok _ => _ | TypeError _ => _ end => fail
             | _ => destruct r; try discriminate H
             end
         end;
  injection H as <-.

Lemma mapToNcdsComponent_validates (node : SimplifiedNode)
  (mapping : NcdsComponentMapping) :
  mapToNcdsComponent node = Ok (Some mapping) ->
  validateNcdsMapping mapping = true.
Proof.
  intros H.
  unfold mapToNcdsComponent, NCDS_COMPONENT_RULES in H.
  do 23 (next_rule H; [this_rule H; reflexivity|]).
  discriminate H.
Qed.

Lemma validateNcdsMapping_In (mapping : NcdsComponentMapping) :
  validateNcdsMapping mapping = true ->
  In (component mapping) supportedKinds.
Proof.
  intros Hvalid. unfold validateNcdsMapping in Hvalid.
  apply existsb_exists in Hvalid. destruct Hvalid as [kind [Hin Heq]].
  apply String.eqb_eq in Heq. subst kind. exact Hin.
Qed.

(** X1.  Whatever the mapper returns passes the validator: its kind is one
    of the supported kinds. *)
Theorem mapped_is_valid (node : SimplifiedNode)
  (mapping : NcdsComponentMapping) :
  mapToNcdsComponent node = Ok (Some mapping) ->
  validateNcdsMapping mapping = true
  /\ In (component mapping) supportedKinds.
Proof.
  intros H.
  pose proof (mapToNcdsComponent_validates node H) as Hvalid.
  split; [exact Hvalid|].
  apply validateNcdsMapping_In. exact Hvalid.
Qed.

Lemma mapped_is_valid_witness :
  exists mapping,
    mapToNcdsComponent (sampleNode "Loading spinner" "FRAME" None None)
    = Ok (Some mapping)
    /\ component mapping = "Spinner"
    /\ validateNcdsMapping mapping = true.
Proof.
  eexists. split; [reflexivity|]. split; [reflexivity|].
  apply (@mapped_is_valid
           (sampleNode "Loading spinner" "FRAME" None None) _ eq_refl).
Defined.

Lemma dropdown_implies_select (node : SimplifiedNode) :
  condition dropdownRule node = true -> condition selectRule node = true.
Proof.
  unfold dropdownRule, selectRule. cbn [condition]. intros H.
  apply andb_true_iff in H. destruct H as [Htype Hname].
  apply andb_true_iff in Hname. destruct Hname as [Hdropdown _].
  rewrite Htype, Hdropdown. rewrite orb_true_r. reflexivity.
Qed.

(** X2.  The Dropdown rule is shadowed by the Select rule, whose condition
    also accepts "dropdown": no node is mapped to a Dropdown. *)
Theorem dropdown_is_never_returned :
  (forall node, condition dropdownRule node = true ->
                condition selectRule node = true)
  /\ (forall node mapping,
        mapToNcdsComponent node = Ok (Some mapping) ->
        component mapping <> "Dropdown").
Proof.
  split; [exact dropdown_implies_select|].
  intros node mapping H.
  unfold mapToNcdsComponent, NCDS_COMPONENT_RULES in H.
  do 4 (next_rule H; [other_kind H|]).
  next_rule_as H Hselect; [other_kind H|].
  do 15 (next_rule H; [other_kind H|]).
  next_rule_as H Hdropdown.
  { apply dropdown_implies_select in Hdropdown. congruence. }
  do 2 (next_rule H; [other_kind H|]).
  discriminate H.
Qed.

Lemma dropdown_is_never_returned_witness :
  condition dropdownRule (sampleNode "Menu dropdown" "FRAME" None None) = true
  /\ exists mapping,
       mapToNcdsComponent (sampleNode "Menu dropdown" "FRAME" None None)
       = Ok (Some mapping)
       /\ component mapping = "Select"
       /\ component mapping <> "Dropdown".
Proof.
  split; [reflexivity|].
  eexists. split; [reflexivity|]. split; [reflexivity|].
  apply (proj2 dropdown_is_never_returned
           (sampleNode "Menu dropdown" "FRAME" None None)).
  reflexivity.
Defined.

(** X3.  The Tab rule comes before the VerticalTab rule and accepts every
    name with "tab" but not "table": a node is mapped to a VerticalTab only
    if its lower-cased name contains "vertical", "tab" and "table". *)
Theorem vertical_tab_needs_table (node : SimplifiedNode)
  (mapping : NcdsComponentMapping) :
  mapToNcdsComponent node = Ok (Some mapping) ->
  component mapping = "VerticalTab" ->
  includes (toLowerCase (name node)) "vertical" = true
  /\ includes (toLowerCase (name node)) "tab" = true
  /\ includes (toLowerCase (name node)) "table" = true.
Proof.
  intros H Hkind.
  unfold mapToNcdsComponent, NCDS_COMPONENT_RULES in H.
  do 7 (next_rule H; [exfalso; revert Hkind; other_kind H|]).
  next_rule_as H Htab; [exfalso; revert Hkind; other_kind H|].
  do 3 (next_rule H; [exfalso; revert Hkind; other_kind H|]).
  next_rule_as H Hvertical.
  - clear H Hkind.
    unfold tabRule in Htab. unfold verticalTabRule in Hvertical.
    cbn [condition] in Htab, Hvertical.
    apply andb_true_iff in Hvertical. destruct Hvertical as [Htype Hname].
    apply andb_true_iff in Hname. destruct Hname as [Hv Ht].
    rewrite Htype, Ht in Htab. cbn [andb] in Htab.
    apply negb_false_iff in Htab. auto.
  - do 11 (next_rule H; [exfalso; revert Hkind; other_kind H|]).
    discriminate H.
Qed.

Lemma vertical_tab_needs_table_witness :
  exists mapping,
    mapToNcdsComponent
      (sampleNode "Vertical tab of table" "FRAME" None None)
    = Ok (Some mapping)
    /\ component mapping = "VerticalTab"
    /\ includes
         (toLowerCase
            (name (sampleNode "Vertical tab of table" "FRAME" None None)))
         "table" = true.
Proof.
  eexists. split; [reflexivity|]. split; [reflexivity|].
  apply (@vertical_tab_needs_table
           (sampleNode "Vertical tab of table" "FRAME" None None)
           _ eq_refl eq_refl).
Defined.

(** X4.  Only nodes of kind INSTANCE, FRAME, TEXT, LINE or COMPONENT are
    ever mapped: a node of any other kind is mapped to nothing. *)
Theorem other_kinds_are_not_mapped (node : SimplifiedNode) :
  type node <> "INSTANCE" -> type node <> "FRAME" -> type node <> "TEXT" ->
  type node <> "LINE" -> type node <> "COMPONENT" ->
  mapToNcdsComponent node = Ok None.
Proof.
  intros Hinstance Hframe Htext Hline Hcomponent.
  apply String.eqb_neq in Hinstance, Hframe, Htext, Hline, Hcomponent.
  unfold mapToNcdsComponent, NCDS_COMPONENT_RULES.
  repeat (rewrite firstMatch_cons;
          match goal with
          | |- context [if condition ?rule node then _ else _] =>
              replace (condition rule node) with false
                by (unfold rule; cbn [condition];
                    rewrite ?Hinstance, ?Hframe, ?Htext, ?Hline, ?Hcomponent;
                    reflexivity)
          end).
  reflexivity.
Qed.

Lemma other_kinds_are_not_mapped_witness :
  mapToNcdsComponent (sampleNode "Submit button" "GROUP" None None)
  = Ok None.
Proof.
  apply (@other_kinds_are_not_mapped
           (sampleNode "Submit button" "GROUP" None None));
    discriminate.
Defined.

(** X5.  A TEXT node is mapped to a Badge when its lower-cased name
    contains "badge", "tag" or "chip", and to nothing otherwise. *)
Theorem text_node_is_badge_or_nothing (node : SimplifiedNode) :
  type node = "TEXT" ->
  let lname := toLowerCase (name node) in
  (includes lname "badge" || includes lname "tag" || includes lname "chip"
   = true ->
   exists mapping,
     mapToNcdsComponent node = Ok (Some mapping)
     /\ component mapping = "Badge")
  /\ (includes lname "badge" || includes lname "tag" || includes lname "chip"
      = false ->
      mapToNcdsComponent node = Ok None).
Proof.
  intros Htype lname. subst lname.
  unfold mapToNcdsComponent, NCDS_COMPONENT_RULES.
  do 5 (rewrite firstMatch_cons;
        match goal with
        | |- context [if condition ?rule node then _ else _] =>
            replace (condition rule node) with false
              by (unfold rule; cbn [condition]; rewrite Htype; reflexivity)
        end).
  rewrite firstMatch_cons.
  replace (condition badgeRule node)
    with (includes (toLowerCase (name node)) "badge"
          || includes (toLowerCase (name node)) "tag"
          || includes (toLowerCase (name node)) "chip")
    by (unfold badgeRule; cbn [condition]; rewrite Htype; reflexivity).
  split; intros Hname; rewrite Hname.
  - eexists. split; reflexivity.
  - apply orb_false_iff in Hname. destruct Hname as [Hname _].
    apply orb_false_iff in Hname. destruct Hname as [_ Htag].
    repeat (rewrite firstMatch_cons;
            match goal with
            | |- context [if condition ?rule node then _ else _] =>
                replace (condition rule node) with false
                  by (unfold rule; cbn [condition];
                      rewrite Htype, ?Htag; reflexivity)
            end).
    reflexivity.
Qed.

Lemma text_node_is_badge_or_nothing_witness :
  mapToNcdsComponent (sampleNode "Submit button" "TEXT" None None) = Ok None.
Proof.
  apply (proj2 (@text_node_is_badge_or_nothing
                  (sampleNode "Submit button" "TEXT" None None) eq_refl)).
  reflexivity.
Defined.

(** * Further properties of the generator *)

(** ** Identifiers *)

Lemma allChars_replaceNonAlnum (s : string) :
  allChars isIdChar (replaceNonAlnum s) = true.
Proof.
  induction s as [|c rest IH]; [reflexivity|].
  cbn [replaceNonAlnum allChars]. rewrite IH, andb_true_r.
  unfold isIdChar. destruct (isLowerAlnum c) eqn:Hc.
  - rewrite Hc. reflexivity.
  - reflexivity.
Qed.

Lemma collapseUnderscores_cons (c : ascii) (rest : string) :
  collapseUnderscores (String c rest)
  = if (c =? "_")%char && (match firstChar rest with
                            | Some c' => (c' =? "_")%char
                            | None => false
                            end)
    then collapseUnderscores rest
    else String c (collapseUnderscores rest).
Proof.
  cbn [collapseUnderscores]. destruct (c =? "_")%char; [|reflexivity].
  destruct rest as [|c' rest']; [reflexivity|].
  cbn [firstChar andb]. destruct (c' =? "_")%char; reflexivity.
Qed.

Lemma allChars_collapseUnderscores (P : ascii -> bool) (s : string) :
  allChars P s = true -> allChars P (collapseUnderscores s) = true.
Proof.
  induction s as [|c rest IH]; [trivial|].
  intros H. cbn [allChars] in H. apply andb_true_iff in H.
  destruct H as [Hc Hrest]. rewrite collapseUnderscores_cons.
  destruct (_ && _).
  - apply IH. exact Hrest.
  - cbn [allChars]. rewrite Hc. apply IH. exact Hrest.
Qed.

Lemma allChars_stripLeading (P : ascii -> bool) (s : string) :
  allChars P s = true -> allChars P (stripLeadingUnderscore s) = true.
Proof.
  destruct s as [|c rest]; [trivial|]. cbn [stripLeadingUnderscore].
  destruct (c =? "_")%char; [|trivial].
  cbn [allChars]. intros H. apply andb_true_iff in H. tauto.
Qed.

Lemma allChars_stripTrailing (P : ascii -> bool) (s : string) :
  allChars P s = true -> allChars P (stripTrailingUnderscore s) = true.
Proof.
  induction s as [|c rest IH]; [trivial|].
  intros H. cbn [allChars] in H. apply andb_true_iff in H.
  destruct H as [Hc Hrest].
  destruct rest as [|c' rest'].
  - cbn [stripTrailingUnderscore]. destruct (c =? "_")%char.
    + reflexivity.
    + cbn [allChars]. rewrite Hc. reflexivity.
  - change (stripTrailingUnderscore (String c (String c' rest')))
      with (String c (stripTrailingUnderscore (String c' rest'))).
    cbn [allChars]. rewrite Hc. apply IH. exact Hrest.
Qed.

Lemma firstChar_collapseUnderscores (s : string) :
  firstChar (collapseUnderscores s) = firstChar s.
Proof.
  induction s as [|c rest IH]; [reflexivity|].
  rewrite collapseUnderscores_cons.
  destruct (c =? "_")%char eqn:Hc; cbn [andb]; [|reflexivity].
  destruct (firstChar rest) as [c'|] eqn:Hfirst; [|reflexivity].
  destruct (c' =? "_")%char eqn:Hc'; [|reflexivity].
  rewrite IH. apply Ascii.eqb_eq in Hc, Hc'. cbn [firstChar]. congruence.
Qed.

Lemma noDoubleUnderscore_cons (c : ascii) (rest : string) :
  noDoubleUnderscore (String c rest)
  = negb ((c =? "_")%char && (match firstChar rest with
                               | Some c' => (c' =? "_")%char
                               | None => false
                               end))
    && noDoubleUnderscore rest.
Proof.
  destruct rest as [|c' rest']; cbn [noDoubleUnderscore firstChar].
  - rewrite andb_false_r. reflexivity.
  - reflexivity.
Qed.

Lemma noDoubleUnderscore_collapse (s : string) :
  noDoubleUnderscore (collapseUnderscores s) = true.
Proof.
  induction s as [|c rest IH]; [reflexivity|].
  rewrite collapseUnderscores_cons.
  destruct (_ && _) eqn:Hdouble; [exact IH|].
  rewrite noDoubleUnderscore_cons, firstChar_collapseUnderscores.
  rewrite Hdouble, IH. reflexivity.
Qed.

Lemma noDoubleUnderscore_tail (c : ascii) (rest : string) :
  noDoubleUnderscore (String c rest) = true ->
  noDoubleUnderscore rest = true.
Proof.
  rewrite noDoubleUnderscore_cons. intros H.
  apply andb_true_iff in H. tauto.
Qed.

Lemma stripTrailing_cons (c : ascii) (rest : string) :
  stripTrailingUnderscore (String c rest)
  = match rest with
    | EmptyString => if (c =? "_")%char then EmptyString else String c rest
    | String _ _ => String c (stripTrailingUnderscore rest)
    end.
Proof. destruct rest; reflexivity. Qed.

Lemma firstChar_stripTrailing (s : string) :
  firstChar s <> Some "_"%char ->
  firstChar (stripTrailingUnderscore s) = firstChar s.
Proof.
  destruct s as [|c rest]; [reflexivity|].
  rewrite stripTrailing_cons. cbn [firstChar]. intros Hc.
  destruct rest; [|reflexivity].
  destruct (c =? "_")%char eqn:Hunderscore; [|reflexivity].
  apply Ascii.eqb_eq in Hunderscore. congruence.
Qed.

Lemma noDoubleUnderscore_stripTrailing (s : string) :
  noDoubleUnderscore s = true ->
  noDoubleUnderscore (stripTrailingUnderscore s) = true.
Proof.
  induction s as [|c rest IH]; [trivial|].
  intros H. rewrite stripTrailing_cons.
  destruct rest as [|c' rest'].
  - destruct (c =? "_")%char; reflexivity.
  - pose proof (noDoubleUnderscore_tail _ _ H) as Hrest.
    rewrite noDoubleUnderscore_cons in H |- *.
    apply andb_true_iff in H. destruct H as [Hhead _].
    rewrite (IH Hrest), andb_true_r.
    destruct (c =? "_")%char eqn:Hc; [|reflexivity].
    cbn [andb firstChar negb] in Hhead |- *.
    apply negb_true_iff in Hhead.
    rewrite firstChar_stripTrailing.
    + cbn [firstChar]. rewrite Hhead. reflexivity.
    + cbn [firstChar]. intros Heq. injection Heq as ->.
      discriminate Hhead.
Qed.

Lemma lastChar_stripTrailing (s : string) :
  noDoubleUnderscore s = true ->
  lastChar (stripTrailingUnderscore s) <> Some "_"%char.
Proof.
  induction s as [|c rest IH]; [discriminate|].
  intros H. rewrite stripTrailing_cons.
  destruct rest as [|c' rest'].
  - destruct (c =? "_")%char eqn:Hc; [discriminate|].
    cbn [lastChar]. intros Heq. injection Heq as ->. discriminate Hc.
  - pose proof (noDoubleUnderscore_tail _ _ H) as Hrest.
    specialize (IH Hrest).
    destruct (stripTrailingUnderscore (String c' rest')) as [|d tail] eqn:Hs.
    + (* the rest was a lone underscore *)
      cbn [lastChar]. rewrite stripTrailing_cons in Hs.
      destruct rest' as [|d' tail']; [|discriminate Hs].
      destruct (c' =? "_")%char eqn:Hc'; [|discriminate Hs].
      cbn [noDoubleUnderscore] in H. rewrite Hc' in H.
      rewrite andb_true_r in H. apply negb_true_iff in H.
      rewrite andb_true_r in H.
      intros Heq. injection Heq as ->. discriminate H.
    + exact IH.
Qed.

Lemma toPhpNaming_shape (name : string) :
  allChars isIdChar (toPhpNaming name) = true
  /\ noDoubleUnderscore (toPhpNaming name) = true
  /\ firstChar (toPhpNaming name) <> Some "_"%char
  /\ lastChar (toPhpNaming name) <> Some "_"%char.
Proof.
  unfold toPhpNaming, stripUnderscores.
  set (collapsed := collapseUnderscores (replaceNonAlnum (toLowerCase name))).
  assert (Hchars : allChars isIdChar collapsed = true)
    by (apply allChars_collapseUnderscores, allChars_replaceNonAlnum).
  assert (Hdouble : noDoubleUnderscore collapsed = true)
    by apply noDoubleUnderscore_collapse.
  assert (Hstripped :
            noDoubleUnderscore (stripLeadingUnderscore collapsed) = true
            /\ firstChar (stripLeadingUnderscore collapsed) <> Some "_"%char).
  { destruct collapsed as [|c rest]; [split; [reflexivity | discriminate]|].
    cbn [stripLeadingUnderscore].
    destruct (c =? "_")%char eqn:Hc.
    - split; [exact (noDoubleUnderscore_tail _ _ Hdouble)|].
      rewrite noDoubleUnderscore_cons, Hc in Hdouble.
      apply andb_true_iff in Hdouble. destruct Hdouble as [Hhead _].
      cbn [andb] in Hhead. apply negb_true_iff in Hhead.
      destruct (firstChar rest) as [c'|]; [|discriminate].
      intros Heq. injection Heq as ->. discriminate Hhead.
    - split; [exact Hdouble|]. cbn [firstChar].
      intros Heq. injection Heq as ->. discriminate Hc. }
  destruct Hstripped as [Hdouble' Hfirst].
  split; [apply allChars_stripTrailing, allChars_stripLeading, Hchars|].
  split; [apply noDoubleUnderscore_stripTrailing, Hdouble'|].
  split.
  - rewrite firstChar_stripTrailing; assumption.
  - apply lastChar_stripTrailing. exact Hdouble'.
Qed.

Lemma noDoubleUnderscore_includes (s : string) :
  noDoubleUnderscore s = true -> includes s "__" = false.
Proof.
  induction s as [|c rest IH]; [reflexivity|].
  intros H. pose proof (noDoubleUnderscore_tail _ _ H) as Hrest.
  cbn [includes]. rewrite (IH Hrest), orb_false_r.
  destruct rest as [|c' rest'].
  - cbn [prefix]. destruct (ascii_dec "_" c); reflexivity.
  - cbn [noDoubleUnderscore] in H. apply andb_true_iff in H.
    destruct H as [Hhead _]. apply negb_true_iff in Hhead.
    cbn [prefix].
    destruct (ascii_dec "_" c) as [<-|]; [|reflexivity].
    destruct (ascii_dec "_" c') as [<-|]; [|reflexivity].
    discriminate Hhead.
Qed.

(** X6.  An identifier made by [toPhpNaming] holds only lower-case letters,
    digits and underscores; no two underscores are adjacent in it, and it
    neither begins nor ends with an underscore. *)
Theorem toPhpNaming_is_identifier (name : string) :
  allChars isIdChar (toPhpNaming name) = true
  /\ includes (toPhpNaming name) "__" = false
  /\ prefix "_" (toPhpNaming name) = false
  /\ lastChar (toPhpNaming name) <> Some "_"%char.
Proof.
  destruct (toPhpNaming_shape name) as [Hchars [Hdouble [Hfirst Hlast]]].
  split; [exact Hchars|].
  split; [apply noDoubleUnderscore_includes, Hdouble|].
  split; [|exact Hlast].
  destruct (toPhpNaming name) as [|c rest]; [reflexivity|].
  cbn [prefix]. destruct (ascii_dec "_" c) as [<-|]; [|reflexivity].
  exfalso. apply Hfirst. reflexivity.
Qed.

Lemma toLowerChar_idChar (c : ascii) :
  isIdChar c = true -> toLowerChar c = c.
Proof.
  unfold isIdChar, isLowerAlnum, toLowerChar. intros H.
  apply orb_true_iff in H. destruct H as [H | H].
  - replace ((65 <=? nat_of_ascii c)%nat && (nat_of_ascii c <=? 90)%nat)
      with false; [reflexivity|].
    symmetry. apply andb_false_iff.
    apply orb_true_iff in H. destruct H as [H | H];
      apply andb_true_iff in H; destruct H as [Hlow Hhigh];
      apply Nat.leb_le in Hlow, Hhigh.
    + right. apply Nat.leb_gt. lia.
    + left. apply Nat.leb_gt. lia.
  - apply Ascii.eqb_eq in H. subst c. reflexivity.
Qed.

Lemma toLowerCase_idChars (s : string) :
  allChars isIdChar s = true -> toLowerCase s = s.
Proof.
  induction s as [|c rest IH]; [reflexivity|].
  cbn [allChars toLowerCase]. intros H.
  apply andb_true_iff in H. destruct H as [Hc Hrest].
  rewrite (toLowerChar_idChar c Hc), (IH Hrest). reflexivity.
Qed.

Lemma replaceNonAlnum_idChars (s : string) :
  allChars isIdChar s = true -> replaceNonAlnum s = s.
Proof.
  induction s as [|c rest IH]; [reflexivity|].
  cbn [allChars replaceNonAlnum]. intros H.
  apply andb_true_iff in H. destruct H as [Hc Hrest].
  rewrite (IH Hrest). unfold isIdChar in Hc.
  destruct (isLowerAlnum c); [reflexivity|].
  cbn [orb] in Hc. apply Ascii.eqb_eq in Hc. subst c. reflexivity.
Qed.

Lemma collapseUnderscores_noDouble (s : string) :
  noDoubleUnderscore s = true -> collapseUnderscores s = s.
Proof.
  induction s as [|c rest IH]; [reflexivity|].
  intros H. pose proof (noDoubleUnderscore_tail _ _ H) as Hrest.
  rewrite noDoubleUnderscore_cons in H.
  apply andb_true_iff in H. destruct H as [Hhead _].
  apply negb_true_iff in Hhead.
  rewrite collapseUnderscores_cons, Hhead, (IH Hrest). reflexivity.
Qed.

Lemma stripLeadingUnderscore_none (s : string) :
  firstChar s <> Some "_"%char -> stripLeadingUnderscore s = s.
Proof.
  destruct s as [|c rest]; [reflexivity|].
  cbn [firstChar stripLeadingUnderscore]. intros Hc.
  destruct (c =? "_")%char eqn:Hunderscore; [|reflexivity].
  apply Ascii.eqb_eq in Hunderscore. congruence.
Qed.

Lemma stripTrailingUnderscore_none (s : string) :
  lastChar s <> Some "_"%char -> stripTrailingUnderscore s = s.
Proof.
  induction s as [|c rest IH]; [reflexivity|].
  rewrite stripTrailing_cons. destruct rest as [|c' rest'].
  - cbn [lastChar]. intros Hc.
    destruct (c =? "_")%char eqn:Hunderscore; [|reflexivity].
    apply Ascii.eqb_eq in Hunderscore. congruence.
  - intros Hlast. rewrite IH; [reflexivity|]. exact Hlast.
Qed.

(** X7.  Making an identifier of an identifier changes nothing. *)
Theorem toPhpNaming_idempotent (name : string) :
  toPhpNaming (toPhpNaming name) = toPhpNaming name.
Proof.
  destruct (toPhpNaming_shape name) as [Hchars [Hdouble [Hfirst Hlast]]].
  set (made := toPhpNaming name) in *.
  unfold toPhpNaming at 1. unfold stripUnderscores.
  rewrite (toLowerCase_idChars made Hchars).
  rewrite (replaceNonAlnum_idChars made Hchars).
  rewrite (collapseUnderscores_noDouble made Hdouble).
  rewrite (stripLeadingUnderscore_none made Hfirst).
  apply stripTrailingUnderscore_none. exact Hlast.
Qed.

Lemma allChars_ext (P Q : ascii -> bool) (s : string) :
  (forall c, P c = Q c) -> allChars P s = allChars Q s.
Proof.
  intros H. induction s as [|c rest IH]; [reflexivity|].
  cbn [allChars]. rewrite H, IH. reflexivity.
Qed.








(** ** Usage accounting *)

Lemma count_setCount_same (c : string) (n : Z)
  (counter : list (string * Z)) :
  count c (setCount c n counter) = n.
Proof.
  induction counter as [|[k m] rest IH]; cbn [setCount count].
  - rewrite String.eqb_refl. reflexivity.
  - destruct (k =? c) eqn:Hk; cbn [count]; rewrite Hk; [reflexivity|].
    exact IH.
Qed.

Lemma count_setCount_other (c k : string) (n : Z)
  (counter : list (string * Z)) :
  k <> c -> count k (setCount c n counter) = count k counter.
Proof.
  intros Hneq.
  induction counter as [|[k' m] rest IH]; cbn [setCount count].
  - replace (c =? k) with false; [reflexivity|].
    symmetry. apply String.eqb_neq. congruence.
  - destruct (k' =? c) eqn:Hc; cbn [count].
    + destruct (k' =? k) eqn:Hk; [|reflexivity].
      apply String.eqb_eq in Hc, Hk. congruence.
    + rewrite IH. reflexivity.
Qed.

(** X9.  Recording a use of a kind adds 1 to the count of that kind, leaves
    the counts of the other kinds as they were, and puts the kind among the
    used ones. *)
Theorem recordUsage_counts (c : string) (st : Usage) :
  count c (componentCounter (recordUsage c st))
  = (count c (componentCounter st) + 1)%Z
  /\ (forall k, k <> c ->
        count k (componentCounter (recordUsage c st))
        = count k (componentCounter st))
  /\ In c (usedComponents (recordUsage c st)).
Proof.
  unfold recordUsage. cbn [componentCounter usedComponents].
  split; [apply count_setCount_same|].
  split; [intros k Hk; apply count_setCount_other; exact Hk|].
  unfold set_add.
  destruct (existsb (fun k => k =? c) (usedComponents st)) eqn:Hin.
  - apply existsb_exists in Hin. destruct Hin as [k [Hk Heq]].
    apply String.eqb_eq in Heq. subst k. exact Hk.
  - apply in_or_app. right. left. reflexivity.
Qed.

Lemma recordUsage_counts_witness :
  count "Button"
    (componentCounter
       (recordUsage "Button"
          {| usedComponents := ["Modal"; "Button"];
             componentCounter := [("Modal", 1%Z); ("Button", 2%Z)] |}))
  = 3%Z
  /\ count "Modal"
       (componentCounter
          (recordUsage "Button"
             {| usedComponents := ["Modal"; "Button"];
                componentCounter := [("Modal", 1%Z); ("Button", 2%Z)] |}))
     = 1%Z.
Proof.
  split.
  - apply (proj1 (recordUsage_counts "Button"
                    {| usedComponents := ["Modal"; "Button"];
                       componentCounter :=
                         [("Modal", 1%Z); ("Button", 2%Z)] |})).
  - apply (proj1 (proj2 (recordUsage_counts "Button"
                           {| usedComponents := ["Modal"; "Button"];
                              componentCounter :=
                                [("Modal", 1%Z); ("Button", 2%Z)] |}))).
    discriminate.
Defined.

Lemma keys_setCount (c : string) (n : Z) (counter : list (string * Z)) :
  map fst (setCount c n counter) = set_add c (map fst counter).
Proof.
  unfold set_add.
  induction counter as [|[k m] rest IH]; [reflexivity|].
  cbn [setCount map fst existsb].
  destruct (k =? c); cbn [orb map fst]; [reflexivity|].
  rewrite IH.
  destruct (existsb (fun k0 => k0 =? c) (map fst rest)); reflexivity.
Qed.

Lemma NoDup_set_add (c : string) (set : list string) :
  NoDup set -> NoDup (set_add c set).
Proof.
  intros Hset. unfold set_add.
  destruct (existsb (fun k => k =? c) set) eqn:Hin; [exact Hset|].
  assert (Hnotin : ~ In c set).
  { intros Hc.
    assert (Htrue : existsb (fun k => k =? c) set = true).
    { apply existsb_exists. exists c. split; [exact Hc|].
      apply String.eqb_refl. }
    congruence. }
  clear Hin. induction Hset as [|k rest Hk _ IH]; cbn [app].
  - constructor; [intros []|constructor].
  - constructor.
    + intros Hin. apply in_app_or in Hin. destruct Hin as [Hin | [-> | []]].
      * contradiction.
      * apply Hnotin. left. reflexivity.
    + apply IH. intros Hc. apply Hnotin. right. exact Hc.
Qed.

Lemma count_nonnegative (c : string) (counter : list (string * Z)) :
  Forall (fun entry => In (fst entry) supportedKinds /\ (1 <= snd entry)%Z)
    counter ->
  (0 <= count c counter)%Z.
Proof.
  induction 1 as [|[k m] rest [_ Hm] _ IH]; cbn [count]; [lia|].
  cbn [snd] in Hm. destruct (k =? c); [lia | exact IH].
Qed.

Lemma entries_setCount (c : string) (n : Z) (counter : list (string * Z)) :
  In c supportedKinds -> (1 <= n)%Z ->
  Forall (fun entry => In (fst entry) supportedKinds /\ (1 <= snd entry)%Z)
    counter ->
  Forall (fun entry => In (fst entry) supportedKinds /\ (1 <= snd entry)%Z)
    (setCount c n counter).
Proof.
  intros Hc Hn. induction 1 as [|[k m] rest Hentry Hrest IH]; cbn [setCount].
  - constructor; [split; assumption | constructor].
  - destruct (k =? c) eqn:Hk.
    + constructor; [|exact Hrest]. cbn [fst snd] in *. tauto.
    + constructor; assumption.
Qed.

Lemma usageInvariant_recordUsage (c : string) (st : Usage) :
  In c supportedKinds -> usageInvariant st ->
  usageInvariant (recordUsage c st).
Proof.
  intros Hc [Hkeys [Hnodup Hentries]].
  unfold usageInvariant, recordUsage.
  cbn [componentCounter usedComponents].
  split; [rewrite keys_setCount, Hkeys; reflexivity|].
  split; [apply NoDup_set_add; exact Hnodup|].
  apply entries_setCount; [exact Hc | | exact Hentries].
  pose proof (count_nonnegative c Hentries). lia.
Qed.

Lemma bind_Ok {A B : Type} (r : result A) (k : A -> result B) (b : B) :
  bind r k = Ok b -> exists a, r = Ok a /\ k a = Ok b.
Proof.
  destruct r as [a|msg]; cbn [bind]; [|discriminate].
  intros H. exists a. split; [reflexivity | exact H].
Qed.

(** *** What rendering does to the usage *)

Section UsageOfRendering.

Variable circumferenceText : number -> string.
Variable strokeDashoffsetText : number -> number -> string.
Variable options : NcdsHtmlGenerationOptions.

(** A property of the usage that every recorded use of a valid mapping
    keeps. *)
Variable keeps : Usage -> Prop.
Hypothesis keeps_recordUsage :
  forall mapping st,
    validateNcdsMapping mapping = true ->
    keeps st -> keeps (recordUsage (component mapping) st).

Lemma mapNodes_keeps
  (self : SimplifiedNode -> Usage -> result (string * Usage))
  (nodes : list SimplifiedNode) :
  Forall (fun node => forall st r, self node st = Ok r ->
                                   keeps st -> keeps (snd r)) nodes ->
  forall st rs, mapNodes self nodes st = Ok rs -> keeps st -> keeps (snd rs).
Proof.
  induction 1 as [|node rest Hnode _ IH]; intros st rs Hrun Hst;
    cbn [mapNodes] in Hrun.
  - injection Hrun as <-. exact Hst.
  - apply bind_Ok in Hrun. destruct Hrun as [r [Hr Hrun]].
    apply bind_Ok in Hrun. destruct Hrun as [rs' [Hrs Hrun]].
    injection Hrun as <-. cbn [snd].
    apply (IH _ _ Hrs). apply (Hnode _ _ Hr). exact Hst.
Qed.

Lemma generateChildren_keeps
  (self : SimplifiedNode -> Usage -> result (string * Usage))
  (node : SimplifiedNode) :
  (forall cs, children node = Some cs ->
     Forall (fun child => forall st r, self child st = Ok r ->
                                       keeps st -> keeps (snd r)) cs) ->
  forall st r, generateChildren self node st = Ok r ->
               keeps st -> keeps (snd r).
Proof.
  intros Hcs st r Hrun Hst. unfold generateChildren in Hrun.
  destruct (children node) as [cs|].
  - destruct (length cs =? 0)%nat.
    + injection Hrun as <-. exact Hst.
    + unfold generateNodesHtml in Hrun.
      apply bind_Ok in Hrun. destruct Hrun as [rs [Hrs Hrun]].
      injection Hrun as <-. cbn [snd].
      eapply mapNodes_keeps; [apply Hcs; reflexivity | exact Hrs | exact Hst].
  - injection Hrun as <-. exact Hst.
Qed.

Lemma generateNodeHtml_keeps (node : SimplifiedNode) :
  forall st r,
    generateNodeHtml circumferenceText strokeDashoffsetText options node st
    = Ok r ->
    keeps st -> keeps (snd r).
Proof.
  induction node as [node IH] using SimplifiedNode_children_ind.
  intros st r Hrun Hst.
  rewrite generateNodeHtml_unfold in Hrun.
  unfold generateNodeHtmlBody in Hrun.
  apply bind_Ok in Hrun. destruct Hrun as [found [_ Hrun]].
  assert (Hregular :
            forall st0 r0,
              generateRegularHtml options
                (generateNodeHtml circumferenceText strokeDashoffsetText
                   options) node st0 = Ok r0 ->
              keeps st0 -> keeps (snd r0)).
  { intros st0 r0 Hr0 Hst0. unfold generateRegularHtml in Hr0.
    cbv zeta in Hr0. apply bind_Ok in Hr0.
    destruct Hr0 as [rc [Hrc Hr0]]. injection Hr0 as <-. cbn [snd].
    eapply generateChildren_keeps; [exact IH | exact Hrc | exact Hst0]. }
  destruct found as [mapping|]; [|apply (Hregular _ _ Hrun Hst)].
  destruct (validateNcdsMapping mapping) eqn:Hvalid;
    [|apply (Hregular _ _ Hrun Hst)].
  unfold generateNcdsComponentHtml in Hrun. cbv zeta in Hrun.
  apply bind_Ok in Hrun. destruct Hrun as [rc [Hrc Hrun]].
  apply bind_Ok in Hrun. destruct Hrun as [body [_ Hrun]].
  injection Hrun as <-. cbn [snd].
  eapply generateChildren_keeps; [exact IH | exact Hrc |].
  apply keeps_recordUsage; assumption.
Qed.

Lemma generateNodesHtml_keeps (nodes : list SimplifiedNode) :
  forall st r,
    generateNodesHtml
      (generateNodeHtml circumferenceText strokeDashoffsetText options)
      nodes st = Ok r ->
    keeps st -> keeps (snd r).
Proof.
  intros st r Hrun Hst. unfold generateNodesHtml in Hrun.
  apply bind_Ok in Hrun. destruct Hrun as [rs [Hrs Hrun]].
  injection Hrun as <-. cbn [snd].
  eapply mapNodes_keeps; [| exact Hrs | exact Hst].
  apply Forall_forall. intros node _. apply generateNodeHtml_keeps.
Qed.

End UsageOfRendering.

Lemma usageInvariant_noUsage : usageInvariant noUsage.
Proof.
  unfold usageInvariant, noUsage. cbn [componentCounter usedComponents].
  split; [reflexivity|]. split; constructor.
Qed.

(** X10.  In what [generateFromDesign] returns, the keys of the usage
    counts are supported kinds without duplicates, every count is at least
    1, and the import list, when it is asked for, is the list of those keys
    in the same order. *)
Theorem usage_is_consistent
  (circumferenceText : number -> string)
  (strokeDashoffsetText : number -> number -> string)
  (this : NcdsHtmlGenerator) (design : SimplifiedDesign) :
  exists generated this',
    generateFromDesign circumferenceText strokeDashoffsetText this design
    = Ok (generated, this')
    /\ NoDup (map fst (componentUsage generated))
    /\ Forall (fun entry => In (fst entry) supportedKinds
                            /\ (1 <= snd entry)%Z)
         (componentUsage generated)
    /\ imports generated
       = (if enabled (generateNcdsImports (this_options this))
          then Some (map fst (componentUsage generated))
          else None).
Proof.
  destruct (generateFromDesign_completes circumferenceText
              strokeDashoffsetText (this_options this) design) as [r Hr].
  assert (Hinv : usageInvariant (snd r)).
  { eapply generateNodesHtml_keeps; [| exact Hr | exact usageInvariant_noUsage].
    intros mapping st Hvalid Hst.
    apply usageInvariant_recordUsage; [|exact Hst].
    apply validateNcdsMapping_In. exact Hvalid. }
  destruct Hinv as [Hkeys [Hnodup Hentries]].
  unfold generateFromDesign.
  cbn [clearUsage this_options usage globalVars].
  rewrite Hr. cbn [bind].
  eexists. eexists. split; [reflexivity|].
  cbn [componentUsage imports usage].
  rewrite Hkeys. split; [exact Hnodup|]. split; [exact Hentries|].
  reflexivity.
Qed.

Lemma totalCount_setCount (c : string) (n : Z)
  (counter : list (string * Z)) :
  totalCount (setCount c n counter)
  = (totalCount counter - count c counter + n)%Z.
Proof.
  induction counter as [|[k m] rest IH]; cbn [setCount totalCount count].
  - lia.
  - destruct (k =? c); cbn [totalCount]; [lia|]. rewrite IH. lia.
Qed.

Lemma totalCount_recordUsage (c : string) (st : Usage) :
  totalCount (componentCounter (recordUsage c st))
  = (totalCount (componentCounter st) + 1)%Z.
Proof.
  unfold recordUsage. cbn [componentCounter].
  rewrite totalCount_setCount. lia.
Qed.

Lemma mappedNodes_unfold (node : SimplifiedNode) :
  mappedNodes node
  = ((match mapToNcdsComponent node with
      | Ok (Some _) => 1
      | _ => 0
      end)
     + match children node with
       | Some cs => list_sum (map mappedNodes cs)
       | None => 0
       end)%nat.
Proof. destruct node; reflexivity. Qed.

Section CountsOfRendering.

Variable circumferenceText : number -> string.
Variable strokeDashoffsetText : number -> number -> string.
Variable options : NcdsHtmlGenerationOptions.

Lemma mapNodes_counts
  (self : SimplifiedNode -> Usage -> result (string * Usage))
  (nodes : list SimplifiedNode) :
  Forall (fun node =>
            forall st r, self node st = Ok r ->
              totalCount (componentCounter (snd r))
              = (totalCount (componentCounter st)
                 + Z.of_nat (mappedNodes node))%Z) nodes ->
  forall st rs, mapNodes self nodes st = Ok rs ->
    totalCount (componentCounter (snd rs))
    = (totalCount (componentCounter st)
       + Z.of_nat (list_sum (map mappedNodes nodes)))%Z.
Proof.
  induction 1 as [|node rest Hnode _ IH]; intros st rs Hrun;
    cbn [mapNodes] in Hrun.
  - injection Hrun as <-. cbn. lia.
  - apply bind_Ok in Hrun. destruct Hrun as [r [Hr Hrun]].
    apply bind_Ok in Hrun. destruct Hrun as [rs' [Hrs Hrun]].
    injection Hrun as <-. cbn [snd map list_sum fold_right].
    rewrite (IH _ _ Hrs), (Hnode _ _ Hr).
    fold (list_sum (map mappedNodes rest)). lia.
Qed.

Lemma generateChildren_counts
  (self : SimplifiedNode -> Usage -> result (string * Usage))
  (node : SimplifiedNode) :
  (forall cs, children node = Some cs ->
     Forall (fun child =>
               forall st r, self child st = Ok r ->
                 totalCount (componentCounter (snd r))
                 = (totalCount (componentCounter st)
                    + Z.of_nat (mappedNodes child))%Z) cs) ->
  forall st r, generateChildren self node st = Ok r ->
    totalCount (componentCounter (snd r))
    = (totalCount (componentCounter st)
       + Z.of_nat (match children node with
                   | Some cs => list_sum (map mappedNodes cs)
                   | None => 0
                   end))%Z.
Proof.
  intros Hcs st r Hrun. unfold generateChildren in Hrun.
  destruct (children node) as [cs|].
  - destruct cs as [|child rest].
    + injection Hrun as <-. cbn. lia.
    + cbn [length Nat.eqb] in Hrun. unfold generateNodesHtml in Hrun.
      apply bind_Ok in Hrun. destruct Hrun as [rs [Hrs Hrun]].
      injection Hrun as <-. cbn [snd].
      eapply mapNodes_counts; [apply Hcs; reflexivity | exact Hrs].
  - injection Hrun as <-. cbn. lia.
Qed.

Lemma generateNodeHtml_counts (node : SimplifiedNode) :
  forall st r,
    generateNodeHtml circumferenceText strokeDashoffsetText options node st
    = Ok r ->
    totalCount (componentCounter (snd r))
    = (totalCount (componentCounter st) + Z.of_nat (mappedNodes node))%Z.
Proof.
  induction node as [node IH] using SimplifiedNode_children_ind.
  intros st r Hrun.
  rewrite generateNodeHtml_unfold in Hrun.
  unfold generateNodeHtmlBody in Hrun.
  apply bind_Ok in Hrun. destruct Hrun as [found [Hfound Hrun]].
  rewrite mappedNodes_unfold, Hfound.
  assert (Hregular :
            forall st0 r0,
              generateRegularHtml options
                (generateNodeHtml circumferenceText strokeDashoffsetText
                   options) node st0 = Ok r0 ->
              totalCount (componentCounter (snd r0))
              = (totalCount (componentCounter st0)
                 + Z.of_nat (match children node with
                             | Some cs => list_sum (map mappedNodes cs)
                             | None => 0
                             end))%Z).
  { intros st0 r0 Hr0. unfold generateRegularHtml in Hr0.
    cbv zeta in Hr0. apply bind_Ok in Hr0.
    destruct Hr0 as [rc [Hrc Hr0]]. injection Hr0 as <-. cbn [snd].
    eapply generateChildren_counts; [exact IH | exact Hrc]. }
  destruct found as [mapping|].
  - rewrite (mapToNcdsComponent_validates node Hfound) in Hrun.
    unfold generateNcdsComponentHtml in Hrun. cbv zeta in Hrun.
    apply bind_Ok in Hrun. destruct Hrun as [rc [Hrc Hrun]].
    apply bind_Ok in Hrun. destruct Hrun as [body [_ Hrun]].
    injection Hrun as <-. cbn [snd].
    erewrite generateChildren_counts; [| exact IH | exact Hrc].
    rewrite totalCount_recordUsage. lia.
  - rewrite (Hregular _ _ Hrun). lia.
Qed.

End CountsOfRendering.

(** X11.  The usage counts that [generateFromDesign] returns add up to the
    number of nodes of the design that the mapper maps. *)
Theorem usage_counts_the_mapped_nodes
  (circumferenceText : number -> string)
  (strokeDashoffsetText : number -> number -> string)
  (this : NcdsHtmlGenerator) (design : SimplifiedDesign) :
  exists generated this',
    generateFromDesign circumferenceText strokeDashoffsetText this design
    = Ok (generated, this')
    /\ totalCount (componentUsage generated)
       = Z.of_nat (list_sum (map mappedNodes (nodes design))).
Proof.
  destruct (generateFromDesign_completes circumferenceText
              strokeDashoffsetText (this_options this) design) as [r Hr].
  unfold generateFromDesign.
  cbn [clearUsage this_options usage globalVars].
  rewrite Hr. cbn [bind].
  eexists. eexists. split; [reflexivity|].
  cbn [componentUsage usage].
  unfold generateNodesHtml in Hr.
  apply bind_Ok in Hr. destruct Hr as [rs [Hrs Hr]].
  injection Hr as <-. cbn [snd].
  erewrite mapNodes_counts; [| | exact Hrs].
  - reflexivity.
  - apply Forall_forall. intros node _. apply generateNodeHtml_counts.
Qed.

(** ** Markup is never blank *)

Ltac head_if :=
  match goal with
  | |- trimmedNonEmpty (if ?b then _ else _) = true => destruct b
  end.

Lemma componentHtml_not_blank
  (circumferenceText : number -> string)
  (strokeDashoffsetText : number -> number -> string)
  (mapping : NcdsComponentMapping) (id className : string)
  (props : list (string * value)) (children : string)
  (node : SimplifiedNode) (body : string) :
  componentHtml circumferenceText strokeDashoffsetText mapping id className
    props children node = Ok body ->
  trimmedNonEmpty body = true.
Proof.
  unfold componentHtml. cbv zeta. intros H.
  repeat match type of H with
         | (if ?b then _ else _) = _ => destruct b
         end;
    first
      [ injection H as <-;
        first [ reflexivity
              | unfold generateSpinnerHtml, generateDividerHtml; cbv zeta;
                head_if; reflexivity ]
      | unfold generateSelectHtml, generateTabHtml, generateVerticalTabHtml,
          generateBreadcrumbHtml, generateDropdownHtml in H;
        cbv zeta in H; apply bind_Ok in H; destruct H as [inner [_ H]];
        injection H as <-; reflexivity ].
Qed.

Lemma generateNodeHtml_not_blank
  (circumferenceText : number -> string)
  (strokeDashoffsetText : number -> number -> string)
  (options : NcdsHtmlGenerationOptions) (node : SimplifiedNode)
  (st : Usage) (r : string * Usage) :
  generateNodeHtml circumferenceText strokeDashoffsetText options node st
  = Ok r ->
  trimmedNonEmpty (fst r) = true.
Proof.
  intros Hrun. rewrite generateNodeHtml_unfold in Hrun.
  unfold generateNodeHtmlBody in Hrun.
  apply bind_Ok in Hrun. destruct Hrun as [found [_ Hrun]].
  assert (Hregular :
            forall self st0 r0,
              generateRegularHtml options self node st0 = Ok r0 ->
              trimmedNonEmpty (fst r0) = true).
  { intros self st0 r0 Hr0. unfold generateRegularHtml in Hr0.
    cbv zeta in Hr0. apply bind_Ok in Hr0.
    destruct Hr0 as [rc [_ Hr0]]. injection Hr0 as <-. reflexivity. }
  destruct found as [mapping|]; [|exact (Hregular _ _ _ Hrun)].
  destruct (validateNcdsMapping mapping); [|exact (Hregular _ _ _ Hrun)].
  unfold generateNcdsComponentHtml in Hrun. cbv zeta in Hrun.
  apply bind_Ok in Hrun. destruct Hrun as [rc [_ Hrun]].
  apply bind_Ok in Hrun. destruct Hrun as [body [Hbody Hrun]].
  injection Hrun as <-. cbn [fst].
  destruct (enabled (includeComments options)); [reflexivity|].
  cbn [append]. exact (componentHtml_not_blank _ _ _ _ _ _ _ _ Hbody).
Qed.

(** X12.  The markup of a node is never blank, so the filter of
    [generateNodesHtml] drops nothing: the markup of a list of nodes is the
    markup of every node, in order, joined by line feeds. *)
Theorem siblings_are_all_kept
  (circumferenceText : number -> string)
  (strokeDashoffsetText : number -> number -> string)
  (options : NcdsHtmlGenerationOptions) (nodes : list SimplifiedNode)
  (st : Usage) (rs : list string * Usage) :
  mapNodes (generateNodeHtml circumferenceText strokeDashoffsetText options)
    nodes st = Ok rs ->
  Forall (fun fragment => trimmedNonEmpty fragment = true) (fst rs)
  /\ generateNodesHtml
       (generateNodeHtml circumferenceText strokeDashoffsetText options)
       nodes st
     = Ok (join nl (fst rs), snd rs).
Proof.
  intros Hrun.
  assert (Hall : Forall (fun fragment => trimmedNonEmpty fragment = true)
                   (fst rs)).
  { revert st rs Hrun.
    induction nodes as [|node rest IH]; intros st rs Hrun;
      cbn [mapNodes] in Hrun.
    - injection Hrun as <-. constructor.
    - apply bind_Ok in Hrun. destruct Hrun as [r [Hr Hrun]].
      apply bind_Ok in Hrun. destruct Hrun as [rs' [Hrs Hrun]].
      injection Hrun as <-. cbn [fst]. constructor.
      + exact (generateNodeHtml_not_blank _ _ _ _ _ Hr).
      + exact (IH _ _ Hrs). }
  split; [exact Hall|].
  unfold generateNodesHtml. rewrite Hrun. cbn [bind].
  replace (filter trimmedNonEmpty (fst rs)) with (fst rs); [reflexivity|].
  symmetry. induction Hall as [|fragment rest Hfragment _ IH];
    [reflexivity|].
  cbn [filter]. rewrite Hfragment, IH. reflexivity.
Qed.

Lemma siblings_are_all_kept_witness :
  exists rs,
    mapNodes
      (generateNodeHtml circumferenceAt strokeDashoffsetAt
         (this_options (new_NcdsHtmlGenerator noGlobalVars noOptions)))
      (nodes sampleDesign) noUsage = Ok rs
    /\ generateNodesHtml
         (generateNodeHtml circumferenceAt strokeDashoffsetAt
            (this_options (new_NcdsHtmlGenerator noGlobalVars noOptions)))
         (nodes sampleDesign) noUsage
       = Ok (join nl (fst rs), snd rs).
Proof.
  destruct (@mapNodes_completes
              (generateNodeHtml circumferenceAt strokeDashoffsetAt
                 (this_options
                    (new_NcdsHtmlGenerator noGlobalVars noOptions)))
              (nodes sampleDesign)) with (st := noUsage) as [rs Hrs].
  { apply Forall_forall. intros node _. apply generateNodeHtml_completes. }
  exists rs. split; [exact Hrs|].
  apply (proj2 (@siblings_are_all_kept circumferenceAt strokeDashoffsetAt
                  _ _ _ _ Hrs)).
Defined.

(** ** Pagination *)

Lemma generatePaginationHtml_pages (id className : string)
  (props : list (string * value)) (node : SimplifiedNode) :
  generatePaginationHtml id className props node
  = paginationMarkup id
      (js_or (get "currentPage" props) (VNumber 1))
      (js_or (get "totalPages" props) (VNumber 10))
      (js_or (get "breakPoint" props) (VString "pc"))
      (paginationPages props).
Proof. reflexivity. Qed.



(** ** Child text *)

(** X14.  [findChildText] gives [undefined] or the text, which is not
    empty, of a child whose lower-cased name contains the key; without
    children it gives [undefined]. *)
Theorem findChildText_result (node : SimplifiedNode) (key : string)
  (v : value) :
  findChildText node key = Ok v ->
  (children node = None -> v = VUndefined)
  /\ (v = VUndefined
      \/ exists cs child s,
           children node = Some cs /\ In child cs
           /\ includes (toLowerCase (name child)) key = true
           /\ text child = Some s /\ s <> "" /\ v = VString s).
Proof.
  unfold findChildText. destruct (children node) as [cs|];
    cbn [isSome negb deref bind]; intros H; injection H as <-.
  - split; [discriminate|].
    destruct (find _ cs) as [child|] eqn:Hfind; [|left; reflexivity].
    apply find_some in Hfind. destruct Hfind as [Hin Hchild].
    apply andb_true_iff in Hchild. destruct Hchild as [Hname Htext].
    destruct (text child) as [s|] eqn:Hs; [|discriminate Htext].
    right. exists cs, child, s.
    repeat (split; [first [reflexivity | assumption]|]).
    split; [|reflexivity].
    cbn [ofText truthy] in Htext. intros ->. discriminate Htext.
  - split; [reflexivity | left; reflexivity].
Qed.

Lemma findChildText_result_witness :
  findChildText
    (sampleNode "Dialog" "FRAME" None
       (Some [sampleNode "Modal title" "TEXT" (Some "") None;
              sampleNode "Sub-Title" "TEXT" (Some "Delete?") None]))
    "title"
  = Ok (VString "Delete?")
  /\ (VString "Delete?" = VUndefined
      \/ exists cs child s,
           children
             (sampleNode "Dialog" "FRAME" None
                (Some [sampleNode "Modal title" "TEXT" (Some "") None;
                       sampleNode "Sub-Title" "TEXT" (Some "Delete?") None]))
           = Some cs
           /\ In child cs
           /\ includes (toLowerCase (name child)) "title" = true
           /\ text child = Some s /\ s <> "" /\ VString "Delete?" = VString s).
Proof.
  split; [reflexivity|].
  apply (@findChildText_result
           (sampleNode "Dialog" "FRAME" None
              (Some [sampleNode "Modal title" "TEXT" (Some "") None;
                     sampleNode "Sub-Title" "TEXT" (Some "Delete?") None]))
           "title" (VString "Delete?") eq_refl).
Defined.

(** ** Inline styles *)

(** X15.  A node has no inline style exactly when its opacity is absent or
    1 and its corner radius is absent or empty. *)
Theorem generateInlineStyles_empty (node : SimplifiedNode) :
  generateInlineStyles node = ""
  <-> (opacity node = None \/ opacity node = Some 1%Z)
      /\ (borderRadius node = None \/ borderRadius node = Some "").
Proof.
  unfold generateInlineStyles.
  destruct (opacity node) as [o|]; destruct (borderRadius node) as [r|].
  - destruct (o =? 1)%Z eqn:Ho; destruct r as [|ch r']; cbn; split;
      try (intros H; discriminate H);
      try (apply Z.eqb_eq in Ho; subst o; tauto);
      try (apply Z.eqb_neq in Ho;
           intros [[H | H] _]; [discriminate H | congruence]);
      try (intros [_ [H | H]]; discriminate H).
  - destruct (o =? 1)%Z eqn:Ho; cbn; split;
      try (intros H; discriminate H);
      try (apply Z.eqb_eq in Ho; subst o; tauto);
      try (apply Z.eqb_neq in Ho;
           intros [[H | H] _]; [discriminate H | congruence]).
  - destruct r as [|ch r']; cbn; split;
      try (intros H; discriminate H); try tauto;
      try (intros [_ [H | H]]; discriminate H).
  - cbn. tauto.
Qed.

(** ** Options of a select *)

Lemma append_empty_r (s : string) : s ++ "" = s.
Proof.
  induction s as [|c rest IH]; [reflexivity|].
  cbn [append]. rewrite IH. reflexivity.
Qed.

Lemma append_associative (a b c : string) : (a ++ b) ++ c = a ++ b ++ c.
Proof.
  induction a as [|ch rest IH]; [reflexivity|].
  cbn [append]. rewrite IH. reflexivity.
Qed.

Lemma join_empty_cons (part : string) (parts : list string) :
  join "" (part :: parts) = part ++ join "" parts.
Proof.
  destruct parts as [|next rest].
  - cbn [join]. symmetry. apply append_empty_r.
  - reflexivity.
Qed.

(** X16.  The loop of [generateSelectHtml] appends, in order, one option
    per child that has text; the value of the option is the 1-based
    position of the child among all the children, text-bearing or not. *)
Theorem selectOptions_positions (cs : list SimplifiedNode) (index : nat)
  (options : string) :
  selectOptions cs index options
  = options ++ join "" (mapi selectOption index cs).
Proof.
  revert index options.
  induction cs as [|child rest IH]; intros index options.
  - cbn [selectOptions mapi join]. symmetry. apply append_empty_r.
  - cbn [selectOptions mapi]. rewrite IH, join_empty_cons.
    unfold selectOption at 2, textBearing.
    destruct (truthy (ofText (text child))).
    + rewrite Nat2Z.inj_add. rewrite !append_associative. reflexivity.
    + reflexivity.
Qed.

(** ** Tabs that throw *)





(** ** What the inferencers and the templates leave out *)

(** X18.  Size inference answers with "xxs", "xs", "sm", "lg", "xl" or
    "md": it never answers "2xl", because a name with "2xl" has "xl" and a
    name with "xxlarge" has "large", which are tested earlier. *)
Theorem inferSize_answers (node : SimplifiedNode) :
  In (inferSize node) ["xxs"; "xs"; "sm"; "lg"; "xl"; "md"].
Proof.
  pose proof (inferSize_names node) as Hnames.
  pose proof (inferSize_never_2xl node) as Hnever.
  unfold sizeNames in Hnames. cbn [In] in Hnames |- *.
  intuition congruence.
Qed.

(** X19.  The notification type that the mapper infers from the name is
    not read by the notification template, which reads [color]; the mapper
    sets no [color], so the markup of a mapped notification is the same
    whatever type was inferred, with the class of the neutral color. *)
Theorem notification_type_is_ignored (node : SimplifiedNode)
  (mapping : NcdsComponentMapping) :
  mapper notificationRule node = Ok mapping ->
  get "type" (props mapping) = VString (inferNotificationType node)
  /\ get "color" (props mapping) = VUndefined
  /\ forall (id className inferred : string) (rendered : SimplifiedNode),
       generateNotificationHtml id className (props mapping) rendered
       = generateNotificationHtml id className
           [("title", get "title" (props mapping));
            ("description", get "description" (props mapping));
            ("type", VString inferred);
            ("color", VString "neutral")]
           rendered.
Proof.
  unfold notificationRule. cbn [mapper]. intros H.
  apply bind_Ok in H. destruct H as [title [_ H]].
  apply bind_Ok in H. destruct H as [description [_ H]].
  injection H as <-. cbn [props].
  split; [reflexivity|]. split; [reflexivity|].
  intros id className inferred rendered. reflexivity.
Qed.

Lemma notification_type_is_ignored_witness :
  exists mapping,
    mapper notificationRule
      (sampleNode "Error toast" "FRAME" (Some "Saving failed") None)
    = Ok mapping
    /\ get "type" (props mapping) = VString "error"
    /\ get "color" (props mapping) = VUndefined.
Proof.
  eexists. split; [reflexivity|].
  destruct (@notification_type_is_ignored
              (sampleNode "Error toast" "FRAME" (Some "Saving failed") None)
              _ eq_refl) as [Htype [Hcolor _]].
  split; [exact Htype | exact Hcolor].
Defined.

Lemma componentHtml_leaf
  (circumferenceText : number -> string)
  (strokeDashoffsetText : number -> number -> string)
  (mapping : NcdsComponentMapping) (id className : string)
  (props : list (string * value)) (children children' : string)
  (node : SimplifiedNode) :
  In (component mapping) leafKinds ->
  componentHtml circumferenceText strokeDashoffsetText mapping id className
    props children node
  = componentHtml circumferenceText strokeDashoffsetText mapping id className
      props children' node.
Proof.
  intros Hleaf. unfold componentHtml. cbv zeta.
  repeat match goal with
         | |- (if ?b then _ else _) = _ =>
             destruct b eqn:?; [try reflexivity|]
         end;
    try match goal with
        | Hkind : (component mapping =? _) = true |- _ =>
            apply String.eqb_eq in Hkind; rewrite Hkind in Hleaf;
            cbn [leafKinds In] in Hleaf;
            repeat (destruct Hleaf as [Hleaf | Hleaf];
                    [discriminate Hleaf|]);
            destruct Hleaf
        end.
  exfalso. cbn [leafKinds In] in Hleaf.
  repeat (destruct Hleaf as [Hleaf | Hleaf];
          [symmetry in Hleaf; apply String.eqb_eq in Hleaf; congruence|]).
  destruct Hleaf.
Qed.

(** X20.  For a mapping of a kind other than Button, Modal, Tooltip,
    Dropdown and EmptyState, the markup of the node holds nothing of the
    markup of its children: it is the same whatever the children render
    to, although the children are rendered and counted. *)
Theorem leaf_markup_ignores_children
  (circumferenceText : number -> string)
  (strokeDashoffsetText : number -> number -> string)
  (options : NcdsHtmlGenerationOptions)
  (self self' : SimplifiedNode -> Usage -> result (string * Usage))
  (mapping : NcdsComponentMapping) (node : SimplifiedNode)
  (st st' : Usage) (r r' : string * Usage) :
  In (component mapping) leafKinds ->
  generateNcdsComponentHtml circumferenceText strokeDashoffsetText options
    self mapping node st = Ok r ->
  generateNcdsComponentHtml circumferenceText strokeDashoffsetText options
    self' mapping node st' = Ok r' ->
  fst r = fst r'.
Proof.
  intros Hleaf Hrun Hrun'.
  unfold generateNcdsComponentHtml in Hrun, Hrun'. cbv zeta in Hrun, Hrun'.
  apply bind_Ok in Hrun. destruct Hrun as [rc [_ Hrun]].
  apply bind_Ok in Hrun. destruct Hrun as [body [Hbody Hrun]].
  apply bind_Ok in Hrun'. destruct Hrun' as [rc' [_ Hrun']].
  apply bind_Ok in Hrun'. destruct Hrun' as [body' [Hbody' Hrun']].
  injection Hrun as <-. injection Hrun' as <-. cbn [fst].
  rewrite (@componentHtml_leaf circumferenceText strokeDashoffsetText
             mapping _ _ _ (fst rc) (fst rc') node Hleaf) in Hbody.
  rewrite Hbody in Hbody'. injection Hbody' as <-. reflexivity.
Qed.

Lemma leaf_markup_ignores_children_witness :
  mapToNcdsComponent checkboxWithInstance = Ok (Some checkboxMapping)
  /\ exists r r',
       generateNcdsComponentHtml circumferenceAt strokeDashoffsetAt
         (this_options (new_NcdsHtmlGenerator noGlobalVars noOptions))
         (generateNodeHtml circumferenceAt strokeDashoffsetAt
            (this_options (new_NcdsHtmlGenerator noGlobalVars noOptions)))
         checkboxMapping checkboxWithInstance noUsage = Ok r
       /\ generateNcdsComponentHtml circumferenceAt strokeDashoffsetAt
            (this_options (new_NcdsHtmlGenerator noGlobalVars noOptions))
            (fun _ st => Ok ("<b>other</b>", st))
            checkboxMapping checkboxWithInstance noUsage = Ok r'
       /\ fst r = fst r'
       /\ componentCounter (snd r) = [("Checkbox", 1%Z); ("Button", 1%Z)].
Proof.
  split; [reflexivity|].
  eexists. eexists.
  split; [vm_compute; reflexivity|].
  split; [vm_compute; reflexivity|].
  split; [|reflexivity].
  eapply (@leaf_markup_ignores_children circumferenceAt strokeDashoffsetAt
            (this_options (new_NcdsHtmlGenerator noGlobalVars noOptions))
            (generateNodeHtml circumferenceAt strokeDashoffsetAt
               (this_options (new_NcdsHtmlGenerator noGlobalVars noOptions)))
            (fun _ st => Ok ("<b>other</b>", st))
            checkboxMapping checkboxWithInstance noUsage noUsage).
  - cbn. tauto.
  - vm_compute. reflexivity.
  - vm_compute. reflexivity.
Defined.
